(** * Tool-calling regression harness: scorers, trace model and workflow

    A shallow embedding of
    - [src/deepeval_utils/local_metrics.py] (the two deterministic scorers),
    - [src/deepeval/evaluate_tool_calling.py] (trace construction and the
      list of called tools),
    - [src/langraph/orchestrator.py] (the ten-stage planning workflow),
    together with the properties the specification states about them.

    Python strings are modelled as byte strings ([string]); the byte-wise
    lexicographic order used for [sorted] coincides with Python's code-point
    order on UTF-8 encoded text.  Python floats are primitive binary64
    floats, Python ints are [Z]. *)

From Stdlib Require Import ZArith Ascii String List Floats.PrimFloat.
From Stdlib Require OrdersEx.
From stdpp Require Import gmap strings pretty list sorting.

Local Open Scope string_scope.
Local Open Scope list_scope.

(** ** Python values of JSON shape *)

#[local] Unset Elimination Schemes.
Inductive json : Type :=
  | JNull
  | JBool (b : bool)
  | JInt (z : Z)
  | JFloat (f : float)
  | JStr (s : string)
  | JArr (items : list json)
  | JObj (fields : list (string * json)).
#[local] Set Elimination Schemes.

(** A [dict] with string keys whose insertion order is observable. *)
Abbreviation pydict := (list (string * json)).

(** [d.get(key, default)] on an insertion-ordered dict. *)
Fixpoint dict_get (d : pydict) (key : string) (default : json) : json :=
  match d with
  | [] => default
  | (k, v) :: d' => if String.eqb k key then v else dict_get d' key default
  end.

(** ** Exceptions *)

Inductive exn : Type :=
  | TypeError (msg : string)
  | GraphRecursionError
  | InvalidGraph (msg : string).

Inductive outcome (A : Type) : Type :=
  | Ok (a : A)
  | Raise (e : exn).
Arguments Ok {A} a.
Arguments Raise {A} e.

Global Instance outcome_ret : MRet outcome := fun A a => Ok a.
Global Instance outcome_bind : MBind outcome := fun A B k r =>
  match r with
  | Ok a => k a
  | Raise e => Raise e
  end.

(** ** String helpers *)

(** [sep.join(items)] for a list of [str]. *)
Definition join (sep : string) (items : list string) : string :=
  String.concat sep items.

(** The [TypeError] of [str.join] at an item that is [None]. *)
Definition join_type_error (index : nat) : exn :=
  TypeError ("sequence item " +:+ pretty index
             +:+ ": expected str instance, NoneType found").

(** The items of a list as [str], from position [index] on; fails at the
    first item that is [None]. *)
Fixpoint all_str (index : nat) (items : list (option string))
    : outcome (list string) :=
  match items with
  | [] => Ok []
  | Some s :: rest => l ← all_str (S index) rest; Ok (s :: l)
  | None :: _ => Raise (join_type_error index)
  end.

(** [sep.join(items)] where an item may be [None]. *)
Definition join_any (sep : string) (items : list (option string)) : outcome string :=
  l ← all_str 0 items; Ok (join sep l).

(** Order on [str]: lexicographic on the bytes. *)
Definition str_le (a b : string) : Prop :=
  OrdersEx.String_as_OT.compare a b <> Gt.
Definition str_lt (a b : string) : Prop :=
  OrdersEx.String_as_OT.compare a b = Lt.

Global Instance str_le_dec : RelDecision str_le.
Proof. intros a b; unfold str_le; apply _. Defined.

(** [sorted(s)] for a set of strings. *)
Definition sorted (s : gset string) : list string :=
  merge_sort str_le (elements s).

(** ** Scores *)

Module ToolCall.
Record t : Type := mk { name : string; parameters : pydict }.
End ToolCall.
Abbreviation ToolCall := ToolCall.t.

Record ToolSelectionScore : Type := {
  score : float;
  reason : string
}.

(** ** LocalToolCorrectnessMetric *)

(** The attributes of the metric read by the scorer.  [expected_tools] is
    [None] when the instance has no such attribute ([hasattr] is false). *)
Record LocalToolCorrectnessMetric : Type := {
  should_exact_match : bool;
  expected_tools : option (list ToolCall)
}.

(** Names of a list of tool calls, as a set. *)
Definition name_set (tools : list ToolCall) : gset string :=
  list_to_set (ToolCall.name <$> tools).

(** Truthiness of a list. *)
Definition nonempty {A} (l : list A) : bool :=
  match l with [] => false | _ => true end.

Definition mismatch_details (missing extra : list string) : list string :=
  (if nonempty missing then ["missing " +:+ join ", " missing] else []) ++
  (if nonempty extra then ["extra " +:+ join ", " extra] else []).

Definition _compute_selection_score (self : LocalToolCorrectnessMetric)
    (tools_called : list ToolCall) (available_tools : option (list ToolCall))
    : ToolSelectionScore :=
  match available_tools with
  | None | Some [] =>
      {| score := 1;
         reason := "No available tools catalogue provided; assuming selection is valid." |}
  | Some available =>
      let available_names := name_set available in
      let called_names := ToolCall.name <$> tools_called in
      let unknown_tools :=
        sorted (list_to_set (filter (fun n => n ∉ available_names) called_names)) in
      if nonempty unknown_tools then
        {| score := 0;
           reason := "Agent invoked unsupported tools: " +:+ join ", " unknown_tools +:+ "." |}
      else
        let matches :=
          {| score := 1; reason := "Tool selection matches expectation." |} in
        match should_exact_match self, expected_tools self with
        | true, Some expected =>
            let expected_names := name_set expected in
            let missing := sorted (expected_names ∖ list_to_set called_names) in
            let extra := sorted (list_to_set called_names ∖ expected_names) in
            if nonempty missing || nonempty extra then
              {| score := 0;
                 reason := "Tool selection mismatch: "
                           +:+ join "; " (mismatch_details missing extra) +:+ "." |}
            else matches
        | _, _ => matches
        end
  end.

(** ** Traces *)

Module Trace.
#[local] Unset Elimination Schemes.
Inductive t : Type := mk {
  name : option string;
  type : string;
  input : json;
  output : json;
  children : list t
}.
#[local] Set Elimination Schemes.
End Trace.
Abbreviation Trace := Trace.t.

(** ** LocalStepEfficiencyMetric *)

Module StepExpectations.
Record t : Type := mk { expected_tools : list string }.
End StepExpectations.
Abbreviation StepExpectations := StepExpectations.t.

Record LocalStepEfficiencyMetric : Type := {
  expectations : StepExpectations
}.

(** [trace.get("children", [])]; [None] stands for a dict without a
    ["children"] entry, such as the [{}] that [_get_score] passes when the
    test case carries no trace. *)
Definition trace_children (trace : option Trace) : list Trace :=
  match trace with
  | Some t => Trace.children t
  | None => []
  end.

(** [[child.get("name") for child in children]]: a child without a name
    contributes [None]. *)
Definition tool_sequence_of (trace : option Trace) : list (option string) :=
  Trace.name <$> trace_children trace.

(** [[name for name in expected if name not in tool_sequence]] *)
Definition missing_names (expected : list string)
    (tool_sequence : list (option string)) : list string :=
  filter (fun n => Some n ∉ tool_sequence) expected.

(** [[name for name in tool_sequence if name not in expected]] *)
Definition extra_names (expected : list string)
    (tool_sequence : list (option string)) : list (option string) :=
  filter (fun n => n ∉ (Some <$> expected)) tool_sequence.

Definition _score_trace (self : LocalStepEfficiencyMetric) (trace : option Trace)
    : outcome ToolSelectionScore :=
  let tool_sequence := tool_sequence_of trace in
  let expected := StepExpectations.expected_tools (expectations self) in
  if decide (tool_sequence = Some <$> expected) then
    Ok {| score := 1;
          reason := "Execution matched expected minimal tool sequence." |}
  else
    let missing := missing_names expected tool_sequence in
    let extra := extra_names expected tool_sequence in
    details_missing ←
      (if nonempty missing then Ok ["missing " +:+ join ", " missing] else Ok []);
    details_extra ←
      (if nonempty extra
       then s ← join_any ", " extra; Ok ["extra " +:+ s]
       else Ok []);
    let details := details_missing ++ details_extra in
    let details :=
      if negb (nonempty details) && bool_decide (tool_sequence ≠ Some <$> expected)
      then details ++ ["tool order differed from expectation"]
      else details in
    Ok {| score := 0;
          reason := "Trace deviated from expected sequence: "
                    +:+ join "; " details +:+ "." |}.

(** [_get_score] and [_a_get_score]: [test_case._trace_dict or {}]. *)
Definition _get_score (self : LocalStepEfficiencyMetric)
    (_trace_dict : option Trace) : outcome ToolSelectionScore :=
  _score_trace self _trace_dict.

(** ** The agent's reply and the trace built from it *)

(** The reply has the shape
    [{response, toolCalls: [{name, parameters}],
      metadata: {toolResults: [{toolName, result}]}}];
    a field read with [.get] is an [option], [None] when the key is
    missing (or, for names, [null]). *)
Module Call.
Record t : Type := mk { name : option string; parameters : option pydict }.
End Call.
Abbreviation Call := Call.t.

Module ToolResult.
Record t : Type := mk { toolName : option string; result : option json }.
End ToolResult.
Abbreviation ToolResult := ToolResult.t.

Record Metadata : Type := { toolResults : option (list ToolResult) }.

Record AgentOutput : Type := {
  response : option string;
  toolCalls : option (list Call);
  metadata : option Metadata
}.

(** [metadata.get("toolResults", [])] after
    [metadata = agent_output.get("metadata") or {}]. *)
Definition tool_results (agent_output : AgentOutput) : list ToolResult :=
  match metadata agent_output with
  | Some m => default [] (toolResults m)
  | None => []
  end.

(** [result.get("result")] of an entry of [toolResults]. *)
Definition result_of (r : ToolResult) : json := default JNull (ToolResult.result r).

(** The dict filled by the first loop of [build_trace]; a missing
    ["toolName"] is the key [None], a missing ["result"] the value [None]. *)
Definition tool_results_by_name (agent_output : AgentOutput)
    : gmap (option string) json :=
  foldl (fun by_name r => <[ToolResult.toolName r := result_of r]> by_name)
        ∅ (tool_results agent_output).

Definition build_trace (prompt : string) (agent_output : AgentOutput) : Trace :=
  let by_name := tool_results_by_name agent_output in
  Trace.mk (Some "agentic_service") "agent"
    (JObj [("input", JStr prompt)])
    (JStr (default "" (response agent_output)))
    ((fun call =>
        Trace.mk (Call.name call) "tool"
          (JObj [("inputParameters", JObj (default [] (Call.parameters call)))])
          (default JNull (by_name !! Call.name call))
          [])
     <$> default [] (toolCalls agent_output)).

(** [ToolCall(name=name, parameters=parameters or {})]; the fallback for
    older library versions builds the same call under another keyword. *)
Definition build_tool_call (name : string) (parameters : option pydict) : ToolCall :=
  ToolCall.mk name (default [] parameters).

(** Truthiness of [call.get("name")]. *)
Definition has_name (call : Call) : bool :=
  match Call.name call with
  | Some n => negb (String.eqb n "")
  | None => false
  end.

(** The list [tools_called] built in [main] for one scenario. *)
Definition tools_called_of (agent_output : AgentOutput) : list ToolCall :=
  (fun call => build_tool_call (default "" (Call.name call)) (Call.parameters call))
  <$> filter (fun call => has_name call = true) (default [] (toolCalls agent_output)).

(** The observed sequence judged by the Step-Efficiency Scorer in [main]:
    the names of the children of the trace attached to the test case. *)
Definition observed_sequence (prompt : string) (agent_output : AgentOutput)
    : list (option string) :=
  tool_sequence_of (Some (build_trace prompt agent_output)).

(** *** Scenarios and the scorer calls of [main] *)

Module Scenario.
Record t : Type := mk {
  name : string;
  prompt : string;
  expected_tools : list (string * option pydict);
  index_texts : option (list string);
  use_real_llm : bool
}.
End Scenario.
Abbreviation Scenario := Scenario.t.

Definition SCENARIOS : list Scenario :=
  [Scenario.mk "Math tool selection" "Calculate 15 + 27 using the math tool"
     [("math", Some [("operation", JStr "add"); ("a", JInt 15); ("b", JInt 27)])]
     None true;
   Scenario.mk "Directory listing" "List the contents of the current directory"
     [("filesystem", Some [("action", JStr "list"); ("path", JStr ".")])]
     None true;
   Scenario.mk "RAG lookup" "Search for information about tool calling patterns"
     [("rag", Some [("query", JStr "tool calling patterns")])]
     (Some ["Tool calling patterns describe how agents select and sequence tool invocations to satisfy user requests."])
     true].

(** [_get_tool_selection_score] and its async twin. *)
Definition _get_tool_selection_score (self : LocalToolCorrectnessMetric)
    (user_input : string) (tools_called : list ToolCall)
    (available_tools : option (list ToolCall)) : ToolSelectionScore :=
  _compute_selection_score self tools_called available_tools.

(** The two scorer calls that [main] sets up for one scenario and the
    agent's reply to it. *)
Definition scenario_scores (scenario : Scenario) (agent_output : AgentOutput)
    : ToolSelectionScore * outcome ToolSelectionScore :=
  let available_tools :=
    (fun name => build_tool_call name None) <$> ["math"; "filesystem"; "rag"] in
  let tools_called := tools_called_of agent_output in
  let expected_tools :=
    (fun tool => build_tool_call tool.1 tool.2) <$> Scenario.expected_tools scenario in
  let _trace_dict := build_trace (Scenario.prompt scenario) agent_output in
  let tool_metric :=
    {| should_exact_match := true; expected_tools := Some expected_tools |} in
  let efficiency_metric :=
    {| expectations := StepExpectations.mk (ToolCall.name <$> expected_tools) |} in
  (_get_tool_selection_score tool_metric (Scenario.prompt scenario)
     tools_called (Some available_tools),
   _get_score efficiency_metric (Some _trace_dict)).

(** ** The planning workflow *)

Definition dquote : string := String "034"%char "".
Definition newline : string := String "010"%char "".

(** Components of a path, separated by ["/"]. *)
Fixpoint path_parts (p : string) : list string :=
  match p with
  | "" => [""]
  | String c rest =>
      if Ascii.eqb c "/"%char then "" :: path_parts rest
      else match path_parts rest with
           | part :: parts => String c part :: parts
           | [] => [String c ""]
           end
  end.

(** The root of a POSIX path: two leading slashes are kept, one or three
    and more collapse to one. *)
Definition path_root (p : string) : string :=
  match p with
  | String "/"%char (String "/"%char (String "/"%char _)) => "/"
  | String "/"%char (String "/"%char _) => "//"
  | String "/"%char _ => "/"
  | _ => ""
  end.

(** [Path(p).as_posix()] on a POSIX flavour: empty and ["."] components
    are dropped, [".."] is kept. *)
Definition as_posix (p : string) : string :=
  let parts :=
    filter (fun c => c <> "" /\ c <> ".") (path_parts p) in
  match path_root p, parts with
  | "", [] => "."
  | root, _ => root +:+ join "/" parts
  end.

Module PipelineState.
Record t : Type := mk {
  prompt : string;
  artifacts : list string;
  tools_planned : list json;
  context : pydict;
  step : Z
}.

Definition append_tool (self : t) (name : string) (parameters : pydict) : t :=
  mk (prompt self) (artifacts self)
     (tools_planned self
        ++ [JObj [("tool", JStr name); ("parameters", JObj parameters)]])
     (context self) (step self).

Definition add_artifact (self : t) (description : string) : t :=
  mk (prompt self) (artifacts self ++ [description]) (tools_planned self)
     (context self) (step self).

(** [state.step += 1] *)
Definition incr_step (self : t) : t :=
  mk (prompt self) (artifacts self) (tools_planned self) (context self)
     (step self + 1)%Z.

(** [PipelineState(prompt=prompt, context=context)]: the list fields
    come from their default factories. *)
Definition init (prompt : string) (context : pydict) : t :=
  mk prompt [] [] context 0%Z.
End PipelineState.
Abbreviation PipelineState := PipelineState.t.
Import PipelineState (append_tool, add_artifact, incr_step).

Definition _dataset_stage (state : PipelineState) : PipelineState :=
  let raw_path := as_posix "./tmp_pipeline_raw.txt" in
  let state := append_tool state "filesystem"
    [("action", JStr "write"); ("path", JStr raw_path);
     ("content", JStr "dataset=12,7,23")] in
  let state := add_artifact state ("raw dataset written to " +:+ raw_path) in
  incr_step state.

Definition _metadata_stage (state : PipelineState) : PipelineState :=
  let metadata_path := as_posix "./tmp_pipeline_metadata.json" in
  let state := append_tool state "filesystem"
    [("action", JStr "write"); ("path", JStr metadata_path);
     ("content",
      JStr ("{" +:+ dquote +:+ "source" +:+ dquote +:+ ": " +:+ dquote
            +:+ "synthetic" +:+ dquote +:+ ", " +:+ dquote +:+ "fields"
            +:+ dquote +:+ ": 3}"))] in
  let state := add_artifact state ("metadata stored at " +:+ metadata_path) in
  incr_step state.

Definition _verify_raw_stage (state : PipelineState) : PipelineState :=
  let raw_path := as_posix "./tmp_pipeline_raw.txt" in
  let state := append_tool state "filesystem"
    [("action", JStr "read"); ("path", JStr raw_path)] in
  let state := add_artifact state ("raw dataset verified from " +:+ raw_path) in
  incr_step state.

Definition _verify_metadata_stage (state : PipelineState) : PipelineState :=
  let metadata_path := as_posix "./tmp_pipeline_metadata.json" in
  let state := append_tool state "filesystem"
    [("action", JStr "read"); ("path", JStr metadata_path)] in
  let state := add_artifact state ("metadata verified from " +:+ metadata_path) in
  incr_step state.

Definition _summary_stage (state : PipelineState) : PipelineState :=
  let summary_path := as_posix "./tmp_pipeline_summary.txt" in
  let state := append_tool state "filesystem"
    [("action", JStr "write"); ("path", JStr summary_path);
     ("content", JStr "Summary: collected 3 synthetic observations.")] in
  let state := add_artifact state ("summary stored at " +:+ summary_path) in
  incr_step state.

Definition _rag_stage (state : PipelineState) : PipelineState :=
  let state := append_tool state "rag"
    [("query", JStr "evaluation playbooks and best practices")] in
  let state := add_artifact state "rag query executed for evaluation playbooks" in
  incr_step state.

Definition _rag_capture_stage (state : PipelineState) : PipelineState :=
  let rag_path := as_posix "./tmp_pipeline_rag.txt" in
  let state := append_tool state "filesystem"
    [("action", JStr "write"); ("path", JStr rag_path);
     ("content",
      JStr "RAG insights: Follow the evaluation playbook to validate every artifact.")] in
  let state := add_artifact state ("rag insights captured at " +:+ rag_path) in
  incr_step state.

Definition _rag_verify_stage (state : PipelineState) : PipelineState :=
  let rag_path := as_posix "./tmp_pipeline_rag.txt" in
  let state := append_tool state "filesystem"
    [("action", JStr "read"); ("path", JStr rag_path)] in
  let state := add_artifact state ("rag insights verified from " +:+ rag_path) in
  incr_step state.

Definition _report_stage (state : PipelineState) : PipelineState :=
  let report_path := as_posix "./tmp_pipeline_report.md" in
  let state := append_tool state "filesystem"
    [("action", JStr "write"); ("path", JStr report_path);
     ("content",
      JStr ("# Evaluation Report" +:+ newline +:+ newline
            +:+ "- Raw data stored" +:+ newline
            +:+ "- Metadata verified" +:+ newline
            +:+ "- RAG insights appended"))] in
  let state := add_artifact state ("report drafted at " +:+ report_path) in
  incr_step state.

Definition _final_stage (state : PipelineState) : PipelineState :=
  let state := append_tool state "filesystem"
    [("action", JStr "list"); ("path", JStr ".")] in
  let state := add_artifact state "workspace inventory captured" in
  incr_step state.

(** *** The graph of stages *)

Module StateGraph.
Record t : Type := mk {
  nodes : list (string * (PipelineState -> PipelineState));
  edges : list (string * string)
}.

Definition START : string := "__start__".
Definition END : string := "__end__".

Definition new : t := mk [] [].

Definition add_node (g : t) (key : string)
    (action : PipelineState -> PipelineState) : t :=
  mk (nodes g ++ [(key, action)]) (edges g).

Definition add_edge (g : t) (start_key end_key : string) : t :=
  mk (nodes g) (edges g ++ [(start_key, end_key)]).

Definition set_entry_point (g : t) (key : string) : t := add_edge g START key.
Definition set_finish_point (g : t) (key : string) : t := add_edge g key END.

Definition successors (g : t) (key : string) : list string :=
  snd <$> filter (fun e => e.1 = key) (edges g).

Fixpoint lookup_node (ns : list (string * (PipelineState -> PipelineState)))
    (key : string) : option (PipelineState -> PipelineState) :=
  match ns with
  | [] => None
  | (k, action) :: ns' => if String.eqb k key then Some action else lookup_node ns' key
  end.

(** Modelled from the spec: the graph library's execution of a compiled
    graph is not part of the repository.  Stages run in the order given
    by the edges, from the entry point to the finish point, one stage per
    step; the library's step limit bounds the run.  Only graphs in which
    a stage has at most one outgoing edge are covered. *)
Fixpoint run_from (fuel : nat) (g : t) (current : string) (state : PipelineState)
    : outcome PipelineState :=
  match fuel with
  | O => Raise GraphRecursionError
  | S fuel' =>
      match successors g current with
      | [] => Ok state
      | [next] =>
          if String.eqb next END then Ok state
          else match lookup_node (nodes g) next with
               | Some action => run_from fuel' g next (action state)
               | None => Raise (InvalidGraph "edge to an unknown node")
               end
      | _ => Raise (InvalidGraph "parallel branches")
      end
  end.

Definition recursion_limit : nat := 25.

Definition invoke (g : t) (state : PipelineState) : outcome PipelineState :=
  run_from recursion_limit g START state.
End StateGraph.
Abbreviation StateGraph := StateGraph.t.

Definition _build_graph : StateGraph :=
  let graph := StateGraph.new in
  let graph := StateGraph.add_node graph "dataset" _dataset_stage in
  let graph := StateGraph.add_node graph "metadata" _metadata_stage in
  let graph := StateGraph.add_node graph "verify_raw" _verify_raw_stage in
  let graph := StateGraph.add_node graph "verify_metadata" _verify_metadata_stage in
  let graph := StateGraph.add_node graph "summary" _summary_stage in
  let graph := StateGraph.add_node graph "rag_query" _rag_stage in
  let graph := StateGraph.add_node graph "rag_capture" _rag_capture_stage in
  let graph := StateGraph.add_node graph "rag_verify" _rag_verify_stage in
  let graph := StateGraph.add_node graph "report" _report_stage in
  let graph := StateGraph.add_node graph "final" _final_stage in
  let graph := StateGraph.set_entry_point graph "dataset" in
  let graph := StateGraph.add_edge graph "dataset" "metadata" in
  let graph := StateGraph.add_edge graph "metadata" "verify_raw" in
  let graph := StateGraph.add_edge graph "verify_raw" "verify_metadata" in
  let graph := StateGraph.add_edge graph "verify_metadata" "summary" in
  let graph := StateGraph.add_edge graph "summary" "rag_query" in
  let graph := StateGraph.add_edge graph "rag_query" "rag_capture" in
  let graph := StateGraph.add_edge graph "rag_capture" "rag_verify" in
  let graph := StateGraph.add_edge graph "rag_verify" "report" in
  let graph := StateGraph.add_edge graph "report" "final" in
  let graph := StateGraph.set_finish_point graph "final" in
  graph.

(** The final state as the dict the graph library hands back. *)
Definition state_as_dict (state : PipelineState) : pydict :=
  [("prompt", JStr (PipelineState.prompt state));
   ("artifacts", JArr (JStr <$> PipelineState.artifacts state));
   ("tools_planned", JArr (PipelineState.tools_planned state));
   ("context", JObj (PipelineState.context state));
   ("step", JInt (PipelineState.step state))].

Section Pipeline.
(** [json.dumps], and whether the graph library returns the final state
    as a dict or as the dataclass: both belong to libraries, and
    [run_langraph_pipeline] handles either shape. *)
Variable json_dumps : json -> string.
Variable invoke_returns_dict : bool.

(** The [payload] dict of [run_langraph_pipeline], together with the
    module-level [_COMPILED_GRAPH] after the call. *)
Definition pipeline_payload (prompt : string) (context : option pydict)
    (_COMPILED_GRAPH : option StateGraph)
    : outcome json * option StateGraph :=
  let compiled :=
    match _COMPILED_GRAPH with
    | None => _build_graph
    | Some graph => graph
    end in
  let initial_state := PipelineState.init prompt (default [] context) in
  (result ← StateGraph.invoke compiled initial_state;
   let artifacts :=
     if invoke_returns_dict
     then dict_get (state_as_dict result) "artifacts" (JArr [])
     else JArr (JStr <$> PipelineState.artifacts result) in
   let tools_planned :=
     if invoke_returns_dict
     then dict_get (state_as_dict result) "tools_planned" (JArr [])
     else JArr (PipelineState.tools_planned result) in
   Ok (JObj [("prompt", JStr prompt);
             ("artifacts", artifacts);
             ("plan", tools_planned)]),
   Some compiled).

Definition run_langraph_pipeline (prompt : string) (context : option pydict)
    (_COMPILED_GRAPH : option StateGraph)
    : outcome string * option StateGraph :=
  let '(payload, graph) := pipeline_payload prompt context _COMPILED_GRAPH in
  (p ← payload; Ok (json_dumps p), graph).

(** A sequence of calls in one process, threading [_COMPILED_GRAPH]. *)
Fixpoint run_many (calls : list (string * option pydict))
    (_COMPILED_GRAPH : option StateGraph)
    : list (outcome string) * option StateGraph :=
  match calls with
  | [] => ([], _COMPILED_GRAPH)
  | (prompt, context) :: rest =>
      let '(out, graph) := run_langraph_pipeline prompt context _COMPILED_GRAPH in
      let '(outs, graph') := run_many rest graph in
      (out :: outs, graph')
  end.
End Pipeline.

(** The artifact descriptions and the plan, in stage order. *)
Definition reference_artifacts : list string :=
  ["raw dataset written to tmp_pipeline_raw.txt";
   "metadata stored at tmp_pipeline_metadata.json";
   "raw dataset verified from tmp_pipeline_raw.txt";
   "metadata verified from tmp_pipeline_metadata.json";
   "summary stored at tmp_pipeline_summary.txt";
   "rag query executed for evaluation playbooks";
   "rag insights captured at tmp_pipeline_rag.txt";
   "rag insights verified from tmp_pipeline_rag.txt";
   "report drafted at tmp_pipeline_report.md";
   "workspace inventory captured"].

(** ** Statements and reference values *)

Definition tc (n : string) : ToolCall := ToolCall.mk n [].

(** The names called that the catalogue does not know. *)
Definition unknown_names (tools_called available : list ToolCall) : gset string :=
  list_to_set (filter (fun n => n ∉ name_set available) (ToolCall.name <$> tools_called)).

(** The exact-match property as the specification words it, for one
    catalogue, one list of calls and one expectation. *)
Definition exact_match_as_stated (tools_called : list ToolCall)
    (available_tools : option (list ToolCall)) (expected : list ToolCall) : Prop :=
  let self := {| should_exact_match := true; expected_tools := Some expected |} in
  (name_set tools_called = name_set expected ->
   score (_compute_selection_score self tools_called available_tools) = 1%float)
  /\
  (name_set expected ∖ name_set tools_called <> ∅
   \/ name_set tools_called ∖ name_set expected <> ∅ ->
   score (_compute_selection_score self tools_called available_tools) = 0%float).

(** [mentions needle text]: [needle] occurs in [text]. *)
Fixpoint mentions (needle text : string) : bool :=
  String.prefix needle text ||
  match text with
  | "" => false
  | String _ rest => mentions needle rest
  end.

(** Example 4 as the specification words it: score 0.0 with filesystem
    reported as an extra tool. *)
Definition duplicate_step_as_stated (trace : option Trace) : Prop :=
  exists s,
    _score_trace {| expectations := StepExpectations.mk ["filesystem"] |} trace = Ok s
    /\ score s = 0%float
    /\ mentions "extra filesystem" (reason s) = true.

Definition two_filesystem_calls : AgentOutput :=
  {| response := Some "listed";
     toolCalls := Some [Call.mk (Some "filesystem") None;
                        Call.mk (Some "filesystem") None];
     metadata := None |}.

(** The names of the invocations that carry a non-empty name, in order. *)
Definition named_only (calls : list Call) : list string :=
  omap (fun call =>
          match Call.name call with
          | Some n => if decide (n = "") then None else Some n
          | None => None
          end) calls.

(** Rejection of nameless invocations as the specification words it: no
    entry for them in [tools_called] nor in the observed sequence. *)
Definition nameless_rejected_as_stated (prompt : string)
    (agent_output : AgentOutput) : Prop :=
  let calls := default [] (toolCalls agent_output) in
  ToolCall.name <$> tools_called_of agent_output = named_only calls
  /\ observed_sequence prompt agent_output = Some <$> named_only calls.

Definition nameless_then_math : AgentOutput :=
  {| response := Some "42";
     toolCalls := Some [Call.mk None (Some [("path", JStr ".")]);
                        Call.mk (Some "") None;
                        Call.mk (Some "math") None];
     metadata := None |}.

Definition repeated_math_results : AgentOutput :=
  {| response := Some "done";
     toolCalls := Some [Call.mk (Some "math") None; Call.mk (Some "math") None;
                        Call.mk (Some "rag") None];
     metadata := Some {| toolResults := Some
       [ToolResult.mk (Some "math") (Some (JInt 42));
        ToolResult.mk (Some "filesystem") (Some (JStr "a.txt"));
        ToolResult.mk (Some "math") (Some (JInt 7))] |} |}.

Definition plan_entry (tool : string) (parameters : pydict) : json :=
  JObj [("tool", JStr tool); ("parameters", JObj parameters)].

(** The plan, in stage order. *)
Definition reference_plan : list json :=
  [plan_entry "filesystem"
     [("action", JStr "write"); ("path", JStr "tmp_pipeline_raw.txt");
      ("content", JStr "dataset=12,7,23")];
   plan_entry "filesystem"
     [("action", JStr "write"); ("path", JStr "tmp_pipeline_metadata.json");
      ("content",
       JStr ("{" +:+ dquote +:+ "source" +:+ dquote +:+ ": " +:+ dquote
             +:+ "synthetic" +:+ dquote +:+ ", " +:+ dquote +:+ "fields"
             +:+ dquote +:+ ": 3}"))];
   plan_entry "filesystem"
     [("action", JStr "read"); ("path", JStr "tmp_pipeline_raw.txt")];
   plan_entry "filesystem"
     [("action", JStr "read"); ("path", JStr "tmp_pipeline_metadata.json")];
   plan_entry "filesystem"
     [("action", JStr "write"); ("path", JStr "tmp_pipeline_summary.txt");
      ("content", JStr "Summary: collected 3 synthetic observations.")];
   plan_entry "rag" [("query", JStr "evaluation playbooks and best practices")];
   plan_entry "filesystem"
     [("action", JStr "write"); ("path", JStr "tmp_pipeline_rag.txt");
      ("content",
       JStr "RAG insights: Follow the evaluation playbook to validate every artifact.")];
   plan_entry "filesystem"
     [("action", JStr "read"); ("path", JStr "tmp_pipeline_rag.txt")];
   plan_entry "filesystem"
     [("action", JStr "write"); ("path", JStr "tmp_pipeline_report.md");
      ("content",
       JStr ("# Evaluation Report" +:+ newline +:+ newline
             +:+ "- Raw data stored" +:+ newline
             +:+ "- Metadata verified" +:+ newline
             +:+ "- RAG insights appended"))];
   plan_entry "filesystem" [("action", JStr "list"); ("path", JStr ".")]].

(** What a stage does to a state: one planned call for the filesystem or
    the retrieval tool and one artifact description are appended, the
    step counter grows by one, the rest is untouched. *)
Definition stage_contract (stage : PipelineState -> PipelineState) : Prop :=
  exists tool parameters description,
    (forall state,
        PipelineState.tools_planned (stage state)
          = PipelineState.tools_planned state ++ [plan_entry tool parameters]
        /\ PipelineState.artifacts (stage state)
          = PipelineState.artifacts state ++ [description]
        /\ PipelineState.step (stage state) = (PipelineState.step state + 1)%Z
        /\ PipelineState.prompt (stage state) = PipelineState.prompt state
        /\ PipelineState.context (stage state) = PipelineState.context state)
    /\ (tool = "filesystem" \/ tool = "rag").

(** The ten stages applied one after the other. *)
Definition all_stages (state : PipelineState) : PipelineState :=
  _final_stage (_report_stage (_rag_verify_stage (_rag_capture_stage (_rag_stage
    (_summary_stage (_verify_metadata_stage (_verify_raw_stage (_metadata_stage
      (_dataset_stage state))))))))).

Ltac stage_contract_tac :=
  unfold stage_contract; do 3 eexists;
  split; [intros state; repeat split; reflexivity | (left + right); reflexivity].

(** What [_COMPILED_GRAPH] can hold: nothing before the first call, the
    built graph afterwards. *)
Definition graph_cached (g : option StateGraph) : Prop :=
  g = None \/ g = Some _build_graph.

(** The payload of a run for a given prompt. *)
Definition reference_payload (prompt : string) : json :=
  JObj [("prompt", JStr prompt);
        ("artifacts", JArr (JStr <$> reference_artifacts));
        ("plan", JArr reference_plan)].

(** ** Further statements *)

(** Two expectations that name the same tools. *)
Definition same_expected_names (e e' : option (list ToolCall)) : Prop :=
  option_Forall2 (fun x y => name_set x = name_set y) e e'.

(** [_extract_task_from_trace]: [trace.get("input", {}).get("input", "")]
    on [test_case._trace_dict or {}].  The result is [None] when the
    ["input"] entry of the trace is not a dict, where Python raises
    [AttributeError]. *)
Definition _extract_task_from_trace (_trace_dict : option Trace) : option json :=
  match _trace_dict with
  | None => Some (JStr "")
  | Some trace =>
      match Trace.input trace with
      | JObj input_section => Some (dict_get input_section "input" (JStr ""))
      | _ => None
      end
  end.

(** Stages applied one after the other, first to last. *)
Definition apply_stages (stages : list (PipelineState -> PipelineState))
    (state : PipelineState) : PipelineState :=
  foldl (fun s stage => stage s) state stages.

(** The value filed under [key] in the parameters of a plan entry. *)
Definition entry_parameter (entry : json) (key : string) : json :=
  match entry with
  | JObj fields =>
      match dict_get fields "parameters" JNull with
      | JObj parameters => dict_get parameters key JNull
      | _ => JNull
      end
  | _ => JNull
  end.

(** Every read of the plan comes after a write to the same path. *)
Definition reads_follow_writes (plan : list json) : Prop :=
  forall (i : nat) (entry : json),
    plan !! i = Some entry ->
    entry_parameter entry "action" = JStr "read" ->
    exists (j : nat) (earlier : json),
      (j < i)%nat
      /\ plan !! j = Some earlier
      /\ entry_parameter earlier "action" = JStr "write"
      /\ entry_parameter earlier "path" = entry_parameter entry "path".

(** The parts of the step-efficiency reason, for sequences of names:
    expected names never observed, observed names never expected, and the
    order when neither list has an entry. *)
Definition efficiency_details (expected observed : list string) : list string :=
  let missing := filter (fun n => n ∉ observed) expected in
  let extra := filter (fun n => n ∉ expected) observed in
  (if nonempty missing then ["missing " +:+ join ", " missing] else [])
  ++ (if nonempty extra then ["extra " +:+ join ", " extra] else [])
  ++ (if nonempty missing || nonempty extra then []
      else ["tool order differed from expectation"]).

(** * Properties *)

(** ** Scores and orders *)

Lemma float_one_ne_zero : (1 : float) <> (0 : float).
Proof.
  intros H.
  assert (E : PrimFloat.eqb 1 1 = PrimFloat.eqb 0 1) by (rewrite H; reflexivity).
  vm_compute in E. discriminate E.
Qed.

Lemma str_le_cases (a b : string) : a = b \/ str_lt a b \/ str_lt b a.
Proof.
  unfold str_lt.
  destruct (OrdersEx.String_as_OT.compare_spec a b) as [E | L | L]; auto.
Qed.

Lemma str_lt_irrefl (a : string) : ~ str_lt a a.
Proof. exact (StrictOrder_Irreflexive (R := OrdersEx.String_as_OT.lt) a). Qed.

Lemma str_lt_trans (a b c : string) : str_lt a b -> str_lt b c -> str_lt a c.
Proof. exact (StrictOrder_Transitive (R := OrdersEx.String_as_OT.lt) a b c). Qed.

Lemma str_le_iff (a b : string) : str_le a b <-> a = b \/ str_lt a b.
Proof.
  unfold str_le, str_lt.
  destruct (OrdersEx.String_as_OT.compare_spec a b) as [E | L | L].
  - split; [intros _; left; exact E | discriminate].
  - split; [intros _; right; reflexivity | discriminate].
  - split; [congruence |].
    intros [-> | D]; [| discriminate D].
    destruct (str_lt_irrefl _ L).
Qed.

Global Instance str_le_total : Total str_le.
Proof.
  intros a b. rewrite !str_le_iff.
  destruct (str_le_cases a b) as [E | [L | L]]; auto.
Qed.

Global Instance str_le_trans : Transitive str_le.
Proof.
  intros a b c. rewrite !str_le_iff.
  intros [-> | L1] [-> | L2]; eauto using str_lt_trans.
Qed.

(** ** [sorted] lists the elements of a set, in strictly increasing order *)

Lemma elem_of_sorted (s : gset string) (x : string) : x ∈ sorted s <-> x ∈ s.
Proof. unfold sorted. rewrite merge_sort_Permutation. apply elem_of_elements. Qed.

Lemma NoDup_sorted (s : gset string) : NoDup (sorted s).
Proof. unfold sorted. rewrite merge_sort_Permutation. apply NoDup_elements. Qed.

Lemma StronglySorted_strict (l : list string) :
  StronglySorted str_le l -> NoDup l -> StronglySorted str_lt l.
Proof.
  induction 1 as [| a l Hl IH Ha]; intros Hnd; constructor.
  - apply IH. by apply NoDup_cons in Hnd as [_ ?].
  - apply NoDup_cons in Hnd as [Hnotin _].
    rewrite Forall_forall in Ha |- *. intros x Hx.
    destruct (proj1 (str_le_iff a x) (Ha x Hx)) as [-> | L]; [contradiction | exact L].
Qed.

Lemma sorted_increasing (s : gset string) : StronglySorted str_lt (sorted s).
Proof.
  apply StronglySorted_strict; [| apply NoDup_sorted].
  unfold sorted. apply StronglySorted_merge_sort; apply _.
Qed.

Lemma nonempty_false {A} (l : list A) : nonempty l = false <-> l = [].
Proof. destruct l; simpl; split; congruence. Qed.

Lemma nonempty_true {A} (l : list A) : nonempty l = true <-> l <> [].
Proof. destruct l; simpl; split; congruence. Qed.

Lemma sorted_nil (s : gset string) : sorted s = [] <-> s = ∅.
Proof.
  split.
  - intros H. apply set_eq. intros x. rewrite <- elem_of_sorted, H. set_solver.
  - intros ->. unfold sorted. rewrite elements_empty. reflexivity.
Qed.

(** ** The Tool-Selection Scorer *)

Lemma elem_of_unknown_names (tools_called available : list ToolCall) (n : string) :
  n ∈ unknown_names tools_called available <->
  n ∈ ToolCall.name <$> tools_called /\ n ∉ ToolCall.name <$> available.
Proof.
  unfold unknown_names, name_set.
  rewrite elem_of_list_to_set, list_elem_of_filter, elem_of_list_to_set. tauto.
Qed.

Lemma selection_score_unknown (self : LocalToolCorrectnessMetric)
    (tools_called available : list ToolCall) :
  available <> [] ->
  unknown_names tools_called available <> ∅ ->
  _compute_selection_score self tools_called (Some available) =
    {| score := 0;
       reason := "Agent invoked unsupported tools: "
                 +:+ join ", " (sorted (unknown_names tools_called available))
                 +:+ "." |}.
Proof.
  intros Hav Hunk. unfold _compute_selection_score.
  destruct available as [| a av]; [congruence |].
  fold (unknown_names tools_called (a :: av)).
  assert (E : nonempty (sorted (unknown_names tools_called (a :: av))) = true).
  { apply nonempty_true. rewrite sorted_nil. exact Hunk. }
  rewrite E. reflexivity.
Qed.

Lemma selection_score_known (self : LocalToolCorrectnessMetric)
    (tools_called available : list ToolCall) :
  available <> [] ->
  unknown_names tools_called available = ∅ ->
  _compute_selection_score self tools_called (Some available) =
    let matches :=
      {| score := 1; reason := "Tool selection matches expectation." |} in
    match should_exact_match self, expected_tools self with
    | true, Some expected =>
        let missing := sorted (name_set expected ∖ name_set tools_called) in
        let extra := sorted (name_set tools_called ∖ name_set expected) in
        if nonempty missing || nonempty extra then
          {| score := 0;
             reason := "Tool selection mismatch: "
                       +:+ join "; " (mismatch_details missing extra) +:+ "." |}
        else matches
    | _, _ => matches
    end.
Proof.
  intros Hav Hunk. unfold _compute_selection_score.
  destruct available as [| a av]; [congruence |].
  fold (unknown_names tools_called (a :: av)).
  rewrite Hunk. unfold sorted at 1. rewrite elements_empty. reflexivity.
Qed.

(** C3. With a non-empty catalogue, as soon as one called name is absent
    from it the score is 0.0, whatever the expectation and the matching
    mode; the reason lists the unknown names, each once, in increasing
    order. *)
Theorem C3_unknown_tools_score_zero (self : LocalToolCorrectnessMetric)
    (tools_called available : list ToolCall) :
  available <> [] ->
  (exists t, t ∈ tools_called /\ ToolCall.name t ∉ ToolCall.name <$> available) ->
  exists unknown : list string,
    _compute_selection_score self tools_called (Some available) =
      {| score := 0;
         reason := "Agent invoked unsupported tools: " +:+ join ", " unknown +:+ "." |}
    /\ (forall n, n ∈ unknown <->
          n ∈ ToolCall.name <$> tools_called /\ n ∉ ToolCall.name <$> available)
    /\ NoDup unknown
    /\ StronglySorted str_lt unknown.
Proof.
  intros Hav (t & Ht & Hun).
  exists (sorted (unknown_names tools_called available)).
  split; [| split; [| split]].
  - apply selection_score_unknown; [exact Hav |].
    intros He.
    assert (Hin : ToolCall.name t ∈ unknown_names tools_called available).
    { apply elem_of_unknown_names. split; [| exact Hun].
      apply list_elem_of_fmap. eauto. }
    rewrite He in Hin. set_solver.
  - intros n. rewrite elem_of_sorted. apply elem_of_unknown_names.
  - apply NoDup_sorted.
  - apply sorted_increasing.
Qed.

Lemma C3_unknown_tools_score_zero_witness :
  exists unknown : list string,
    _compute_selection_score
      {| should_exact_match := true; expected_tools := Some [tc "web"] |}
      [tc "web"; tc "math"; tc "apple"; tc "web"]
      (Some [tc "math"; tc "filesystem"; tc "rag"]) =
      {| score := 0;
         reason := "Agent invoked unsupported tools: " +:+ join ", " unknown +:+ "." |}
    /\ (forall n, n ∈ unknown <->
          n ∈ ToolCall.name <$> [tc "web"; tc "math"; tc "apple"; tc "web"]
          /\ n ∉ ToolCall.name <$> [tc "math"; tc "filesystem"; tc "rag"])
    /\ NoDup unknown
    /\ StronglySorted str_lt unknown.
Proof.
  apply (C3_unknown_tools_score_zero
           {| should_exact_match := true; expected_tools := Some [tc "web"] |}
           [tc "web"; tc "math"; tc "apple"; tc "web"]
           [tc "math"; tc "filesystem"; tc "rag"]).
  - discriminate.
  - exists (tc "web"). split.
    + apply list_elem_of_here.
    + simpl. intros H. apply list_elem_of_In in H. simpl in H.
      repeat (destruct H as [H | H]; [discriminate H |]). exact H.
Defined.

Example selection_example_2 :
  _compute_selection_score
    {| should_exact_match := false; expected_tools := None |}
    [tc "web"; tc "math"; tc "apple"; tc "web"]
    (Some [tc "math"; tc "filesystem"; tc "rag"])
  = {| score := 0; reason := "Agent invoked unsupported tools: apple, web." |}.
Proof. vm_compute. reflexivity. Qed.

(** C4. Without a catalogue ([None] or an empty list) the score is 1.0
    whatever was called, and the reason says the selection is assumed
    valid. *)
Theorem C4_no_catalogue_score_one (self : LocalToolCorrectnessMetric)
    (tools_called : list ToolCall) :
  let assumed :=
    {| score := 1;
       reason := "No available tools catalogue provided; assuming selection is valid." |} in
  _compute_selection_score self tools_called None = assumed /\
  _compute_selection_score self tools_called (Some []) = assumed.
Proof. split; reflexivity. Qed.

(** C2, as stated, fails: a called tool outside the catalogue scores 0.0
    even when the called names equal the expected names, and without a
    catalogue a mismatch still scores 1.0. *)
Lemma C2_counterexample :
  ~ exact_match_as_stated [tc "web"] (Some [tc "math"]) [tc "web"]
  /\ ~ exact_match_as_stated [] (Some []) [tc "math"].
Proof.
  split.
  - intros [H _]. specialize (H eq_refl). vm_compute in H.
    exact (float_one_ne_zero (eq_sym H)).
  - intros [_ H].
    assert (D : name_set [tc "math"] ∖ name_set [] <> (∅ : gset string)).
    { intros E. assert (I : "math" ∈ name_set [tc "math"] ∖ name_set []).
      { unfold name_set. simpl. set_solver. }
      rewrite E in I. set_solver. }
    specialize (H (or_introl D)). vm_compute in H.
    exact (float_one_ne_zero H).
Qed.

Lemma unknown_names_empty (tools_called available : list ToolCall) :
  (forall t, t ∈ tools_called -> ToolCall.name t ∈ ToolCall.name <$> available) ->
  unknown_names tools_called available = ∅.
Proof.
  intros H. apply set_eq. intros n. rewrite elem_of_unknown_names.
  split; [| set_solver].
  intros [Hin Hout]. apply list_elem_of_fmap in Hin as (t & -> & Ht).
  destruct (Hout (H t Ht)).
Qed.

(** C2, amended.  With a non-empty catalogue, exact-match mode and an
    expectation: when every called name is in the catalogue and the called
    names equal the expected names as sets, the score is 1.0, in whatever
    order and however often the tools were called; when a name is missing
    or extra, the score is 0.0; in particular no call at all against a
    non-empty expectation scores 0.0. *)
Theorem C2_exact_match_amended (self : LocalToolCorrectnessMetric)
    (tools_called available expected : list ToolCall) :
  should_exact_match self = true ->
  expected_tools self = Some expected ->
  available <> [] ->
  ((forall t, t ∈ tools_called -> ToolCall.name t ∈ ToolCall.name <$> available) ->
   name_set tools_called = name_set expected ->
   _compute_selection_score self tools_called (Some available) =
     {| score := 1; reason := "Tool selection matches expectation." |})
  /\
  (name_set expected ∖ name_set tools_called <> ∅
   \/ name_set tools_called ∖ name_set expected <> ∅ ->
   score (_compute_selection_score self tools_called (Some available)) = 0%float)
  /\
  (tools_called = [] -> expected <> [] ->
   score (_compute_selection_score self tools_called (Some available)) = 0%float).
Proof.
  intros Hexact Hexp Hav.
  assert (Hmis :
    name_set expected ∖ name_set tools_called <> ∅
    \/ name_set tools_called ∖ name_set expected <> ∅ ->
    score (_compute_selection_score self tools_called (Some available)) = 0%float).
  { intros Hdiff.
    destruct (decide (unknown_names tools_called available = ∅)) as [Hk | Hu].
    - rewrite selection_score_known by assumption.
      rewrite Hexact, Hexp. cbv zeta.
      destruct (nonempty (sorted (name_set expected ∖ name_set tools_called))
                || nonempty (sorted (name_set tools_called ∖ name_set expected)))
        eqn:E; [reflexivity |].
      apply orb_false_iff in E as [E1 E2].
      rewrite nonempty_false, sorted_nil in E1, E2. tauto.
    - rewrite selection_score_unknown by assumption. reflexivity. }
  split; [| split].
  - intros Hknown Heq.
    rewrite selection_score_known by auto using unknown_names_empty.
    rewrite Hexact, Hexp, Heq. cbv zeta.
    rewrite difference_diag_L.
    unfold sorted. rewrite elements_empty. reflexivity.
  - exact Hmis.
  - intros -> Hne. apply Hmis. left.
    destruct expected as [| e es]; [congruence |].
    intros E. assert (I : ToolCall.name e ∈ name_set (e :: es) ∖ name_set []).
    { unfold name_set. simpl. set_solver. }
    rewrite E in I. set_solver.
Qed.

Lemma C2_exact_match_amended_witness :
  let self :=
    {| should_exact_match := true;
       expected_tools := Some [tc "math"; tc "rag"] |} in
  let available := [tc "math"; tc "filesystem"; tc "rag"] in
  _compute_selection_score self [tc "rag"; tc "math"; tc "rag"] (Some available) =
    {| score := 1; reason := "Tool selection matches expectation." |}.
Proof.
  intros self available.
  refine (proj1 (C2_exact_match_amended self [tc "rag"; tc "math"; tc "rag"]
                   available [tc "math"; tc "rag"] eq_refl eq_refl _) _ _).
  - discriminate.
  - intros t Ht. apply list_elem_of_In in Ht. simpl in Ht.
    destruct Ht as [<- | [<- | [<- | []]]]; apply list_elem_of_In; simpl; tauto.
  - unfold name_set. simpl. set_solver.
Defined.

Example selection_example_1 :
  _compute_selection_score
    {| should_exact_match := true; expected_tools := Some [tc "math"] |}
    [tc "math"] (Some [tc "math"; tc "filesystem"; tc "rag"])
  = {| score := 1; reason := "Tool selection matches expectation." |}.
Proof. vm_compute. reflexivity. Qed.

Example selection_mismatch_reason :
  _compute_selection_score
    {| should_exact_match := true; expected_tools := Some [tc "rag"; tc "math"] |}
    [tc "filesystem"] (Some [tc "math"; tc "filesystem"; tc "rag"])
  = {| score := 0;
       reason := "Tool selection mismatch: missing math, rag; extra filesystem." |}.
Proof. vm_compute. reflexivity. Qed.

(** ** The Step-Efficiency Scorer *)

Lemma all_str_named (index : nat) (names : list string) :
  all_str index (Some <$> names) = Ok names.
Proof.
  revert index. induction names as [| n names IH]; intros index; [reflexivity |].
  rewrite fmap_cons. cbn [all_str]. rewrite IH. reflexivity.
Qed.

Lemma all_str_nameless (index : nat) (items : list (option string)) :
  None ∈ items -> exists i, all_str index items = Raise (join_type_error i).
Proof.
  revert index. induction items as [| [n |] items IH]; intros index Hin.
  - inversion Hin.
  - apply elem_of_cons in Hin as [Habs | Hin]; [discriminate |].
    destruct (IH (S index) Hin) as [i Hi].
    exists i. cbn [all_str]. rewrite Hi. reflexivity.
  - exists index. reflexivity.
Qed.

Lemma join_any_named (sep : string) (names : list string) :
  join_any sep (Some <$> names) = Ok (join sep names).
Proof. unfold join_any. rewrite all_str_named. reflexivity. Qed.

Lemma None_not_expected (expected : list string) :
  (None : option string) ∉ Some <$> expected.
Proof. intros (n & Habs & _)%list_elem_of_fmap. discriminate. Qed.

Lemma extra_names_named (expected observed : list string) :
  extra_names expected (Some <$> observed) =
  Some <$> filter (fun n => n ∉ expected) observed.
Proof.
  unfold extra_names.
  induction observed as [| n observed IH]; [reflexivity |].
  rewrite fmap_cons, !filter_cons, IH.
  destruct (decide (Some n ∉ Some <$> expected)) as [H | H];
    destruct (decide (n ∉ expected)) as [H' | H']; try reflexivity.
  - exfalso. apply H. apply dec_stable in H'.
    apply list_elem_of_fmap. eauto.
  - exfalso. apply H; clear H.
    intros (m & [= ->] & Hm)%list_elem_of_fmap. contradiction.
Qed.

(** X5.  On a trace whose children all carry a name the scorer returns,
    and the score is 1.0 exactly when the observed names are the expected
    sequence; otherwise it is 0.0. *)
Lemma score_trace_named (self : LocalStepEfficiencyMetric)
    (trace : option Trace) (observed : list string) :
  tool_sequence_of trace = Some <$> observed ->
  let expected := StepExpectations.expected_tools (expectations self) in
  exists s, _score_trace self trace = Ok s
    /\ (observed = expected -> s =
          {| score := 1;
             reason := "Execution matched expected minimal tool sequence." |})
    /\ (observed <> expected -> score s = 0%float)
    /\ (score s = 1%float <-> observed = expected).
Proof.
  intros Hseq expected. unfold _score_trace. rewrite Hseq. fold expected.
  destruct (decide (Some <$> observed = Some <$> expected)) as [E | NE].
  - apply (inj (fmap Some)) in E.
    eexists. split; [reflexivity |]. split; [reflexivity |].
    split; [congruence | tauto].
  - assert (NE' : observed <> expected) by congruence.
    rewrite extra_names_named, join_any_named.
    destruct (nonempty (missing_names expected (Some <$> observed)));
      destruct (nonempty (Some <$> filter (fun n => n ∉ expected) observed));
      (eexists; split; [reflexivity |]);
      (split; [intros; contradiction |]);
      (split; [reflexivity |]);
      (split; [intros H; simpl in H; destruct (float_one_ne_zero (eq_sym H))
              | intros; contradiction]).
Qed.

(** As soon as one child has no name the scorer raises instead of
    returning a score. *)
Lemma score_trace_nameless (self : LocalStepEfficiencyMetric) (trace : option Trace) :
  None ∈ tool_sequence_of trace ->
  exists i, _score_trace self trace = Raise (join_type_error i).
Proof.
  intros Hin. unfold _score_trace.
  set (expected := StepExpectations.expected_tools (expectations self)).
  destruct (decide (tool_sequence_of trace = Some <$> expected)) as [E | NE].
  - rewrite E in Hin. destruct (None_not_expected _ Hin).
  - assert (Hex : None ∈ extra_names expected (tool_sequence_of trace)).
    { unfold extra_names. apply list_elem_of_filter.
      split; [apply None_not_expected | exact Hin]. }
    assert (Hne : nonempty (extra_names expected (tool_sequence_of trace)) = true).
    { apply nonempty_true. intros E. rewrite E in Hex. inversion Hex. }
    destruct (all_str_nameless 0 _ Hex) as [i Hi].
    exists i. rewrite Hne. unfold join_any. rewrite Hi.
    destruct (nonempty (missing_names expected (tool_sequence_of trace)));
      reflexivity.
Qed.

(** C1.  The reply below reports one tool invocation without a name; the
    trace built from it has the observed sequence [[None]], which differs
    from the expected [["math"]], and the scorer raises a [TypeError]
    where the specification has it return 0.0. *)
Theorem C1_nameless_child_raises :
  let agent_output :=
    {| response := Some "42";
       toolCalls := Some [Call.mk None None];
       metadata := None |} in
  let trace := build_trace "Calculate 15 + 27 using the math tool" agent_output in
  let self := {| expectations := StepExpectations.mk ["math"] |} in
  tool_sequence_of (Some trace) = [None]
  /\ _score_trace self (Some trace) =
     Raise (TypeError "sequence item 0: expected str instance, NoneType found").
Proof. split; vm_compute; reflexivity. Qed.

Example math_scenario_with_nameless_call :
  forall scenario, SCENARIOS !! 0%nat = Some scenario ->
  scenario_scores scenario
    {| response := Some "42";
       toolCalls := Some [Call.mk (Some "math") None; Call.mk None None];
       metadata := None |}
  = ({| score := 1; reason := "Tool selection matches expectation." |},
     Raise (TypeError "sequence item 0: expected str instance, NoneType found")).
Proof. intros scenario [= <-]. vm_compute. reflexivity. Qed.

Example math_scenario_passes :
  forall scenario, SCENARIOS !! 0%nat = Some scenario ->
  scenario_scores scenario
    {| response := Some "42";
       toolCalls := Some [Call.mk (Some "math") None];
       metadata := None |}
  = ({| score := 1; reason := "Tool selection matches expectation." |},
     Ok {| score := 1;
           reason := "Execution matched expected minimal tool sequence." |}).
Proof. intros scenario [= <-]. vm_compute. reflexivity. Qed.

Example efficiency_example_3 :
  _score_trace {| expectations := StepExpectations.mk ["filesystem"; "rag"] |}
    (Some (build_trace "p"
       {| response := None;
          toolCalls := Some [Call.mk (Some "rag") None; Call.mk (Some "filesystem") None];
          metadata := None |}))
  = Ok {| score := 0;
          reason := "Trace deviated from expected sequence: tool order differed from expectation." |}.
Proof. vm_compute. reflexivity. Qed.

Example efficiency_missing_extra :
  _score_trace {| expectations := StepExpectations.mk ["filesystem"; "rag"] |}
    (Some (build_trace "p"
       {| response := None;
          toolCalls := Some [Call.mk (Some "math") None; Call.mk (Some "rag") None;
                             Call.mk (Some "math") None];
          metadata := None |}))
  = Ok {| score := 0;
          reason := "Trace deviated from expected sequence: missing filesystem; extra math, math." |}.
Proof. vm_compute. reflexivity. Qed.

(** C5, as stated, fails: the repeated name is a member of the expected
    sequence, so the list of extra names is empty and the reason does not
    report filesystem as extra. *)
Lemma C5_counterexample :
  ~ duplicate_step_as_stated
      (Some (build_trace "List the contents of the current directory"
               two_filesystem_calls)).
Proof.
  intros (s & Hs & _ & Hm).
  vm_compute in Hs. injection Hs as <-.
  vm_compute in Hm. discriminate Hm.
Qed.

(** C5, amended.  With the expected sequence [filesystem] and the observed
    sequence [filesystem, filesystem] the score is 0.0; the missing and
    extra lists, computed by membership, are both empty, and the reason
    states that the tool order differed from expectation. *)
Theorem C5_duplicate_step_amended (trace : option Trace) :
  tool_sequence_of trace = [Some "filesystem"; Some "filesystem"] ->
  missing_names ["filesystem"] (tool_sequence_of trace) = []
  /\ extra_names ["filesystem"] (tool_sequence_of trace) = []
  /\ _score_trace {| expectations := StepExpectations.mk ["filesystem"] |} trace =
       Ok {| score := 0;
             reason := "Trace deviated from expected sequence: tool order differed from expectation." |}.
Proof.
  intros H. unfold _score_trace. rewrite H.
  split; [| split]; vm_compute; reflexivity.
Qed.

Lemma C5_duplicate_step_amended_witness :
  _score_trace {| expectations := StepExpectations.mk ["filesystem"] |}
    (Some (build_trace "List the contents of the current directory"
             two_filesystem_calls)) =
  Ok {| score := 0;
        reason := "Trace deviated from expected sequence: tool order differed from expectation." |}.
Proof.
  refine (proj2 (proj2 (C5_duplicate_step_amended
    (Some (build_trace "List the contents of the current directory"
             two_filesystem_calls)) _))).
  reflexivity.
Defined.

(** ** Called tools and the trace *)

(** C6, as stated, fails: the trace keeps a child for an invocation
    without a name, so the observed sequence has an entry for it. *)
Lemma C6_counterexample :
  ~ nameless_rejected_as_stated "Calculate 15 + 27 using the math tool"
      nameless_then_math.
Proof. intros [_ H]. vm_compute in H. discriminate H. Qed.

Lemma has_name_spec (call : Call) :
  has_name call = true <->
  exists n, Call.name call = Some n /\ n <> "".
Proof.
  unfold has_name. destruct (Call.name call) as [n |].
  - rewrite negb_true_iff, String.eqb_neq. split; [eauto |].
    intros (m & [= ->] & H). exact H.
  - split; [discriminate | intros (? & ? & _); discriminate].
Qed.

Lemma tools_called_names (calls : list Call) :
  ToolCall.name <$>
    ((fun call => build_tool_call (default "" (Call.name call)) (Call.parameters call))
     <$> filter (fun call => has_name call = true) calls)
  = named_only calls.
Proof.
  induction calls as [| call calls IH]; [reflexivity |].
  rewrite filter_cons. unfold named_only in *. cbn [omap list_omap].
  destruct (decide (has_name call = true)) as [H | H].
  - apply has_name_spec in H as (n & Hn & Hne).
    rewrite !fmap_cons, IH, Hn. simpl.
    destruct (decide (n = "")); [contradiction | reflexivity].
  - rewrite IH.
    destruct (Call.name call) as [n |] eqn:Hn; [| reflexivity].
    destruct (decide (n = "")) as [-> | Hne]; [reflexivity |].
    exfalso. apply H. apply has_name_spec. eauto.
Qed.

(** C6, amended.  An invocation whose name is missing or empty is left
    out of [tools_called]: the names passed to the Tool-Selection Scorer
    are those of the invocations with a non-empty name, in order, and none
    is empty.  The trace has one child per reported invocation, so the
    observed sequence lists the name of every invocation as reported. *)
Theorem C6_nameless_calls_amended (prompt : string) (agent_output : AgentOutput) :
  let calls := default [] (toolCalls agent_output) in
  ToolCall.name <$> tools_called_of agent_output = named_only calls
  /\ Forall (fun t => ToolCall.name t <> "") (tools_called_of agent_output)
  /\ length (tools_called_of agent_output)
     = length (filter (fun call => has_name call = true) calls)
  /\ observed_sequence prompt agent_output = Call.name <$> calls.
Proof.
  intros calls. split; [| split; [| split]].
  - apply tools_called_names.
  - unfold tools_called_of. fold calls.
    rewrite Forall_fmap. apply Forall_forall. intros call Hc.
    apply list_elem_of_filter in Hc as [Hn _].
    apply has_name_spec in Hn as (n & Hn & Hne). simpl. rewrite Hn. exact Hne.
  - unfold tools_called_of. apply length_fmap.
  - unfold observed_sequence, tool_sequence_of, build_trace. simpl.
    fold calls. rewrite <- list_fmap_compose. reflexivity.
Qed.

Example nameless_then_math_inputs :
  ToolCall.name <$> tools_called_of nameless_then_math = ["math"]
  /\ observed_sequence "p" nameless_then_math = [None; Some ""; Some "math"].
Proof. split; vm_compute; reflexivity. Qed.

(** ** Tool results in the trace *)

Lemma filter_none {A} (P : A -> Prop) `{!forall x, Decision (P x)} (l : list A) :
  (forall x, x ∈ l -> ~ P x) -> filter P l = [].
Proof.
  induction l as [| x l IH]; intros Hnone; [reflexivity |].
  rewrite filter_cons_False by (apply Hnone; left).
  apply IH. intros y Hy. apply Hnone. by right.
Qed.

(** After the loop over [toolResults], a key holds the result of the last
    entry filed under it; other keys keep what they had. *)
Lemma results_loop_lookup (results : list ToolResult)
    (by_name : gmap (option string) json) (key : option string) :
  foldl (fun m r => <[ToolResult.toolName r := result_of r]> m) by_name results !! key
  = match last (filter (fun r => ToolResult.toolName r = key) results) with
    | Some r => Some (result_of r)
    | None => by_name !! key
    end.
Proof.
  revert by_name. induction results as [| r results IH]; intros by_name;
    [reflexivity |].
  cbn [foldl]. rewrite IH, filter_cons.
  destruct (decide (ToolResult.toolName r = key)) as [E | NE].
  - rewrite last_cons.
    destruct (last (filter _ results)); [reflexivity |].
    rewrite E. apply lookup_insert_eq.
  - destruct (last (filter _ results)); [reflexivity |].
    by apply lookup_insert_ne.
Qed.

Lemma tool_results_by_name_lookup (agent_output : AgentOutput) (key : option string) :
  tool_results_by_name agent_output !! key
  = result_of <$> last (filter (fun r => ToolResult.toolName r = key)
                               (tool_results agent_output)).
Proof.
  unfold tool_results_by_name. rewrite results_loop_lookup.
  destruct (last _); [reflexivity | apply lookup_empty].
Qed.

(** The children of the trace follow the reported invocations, one each,
    with the output found under the invocation's name. *)
Lemma build_trace_children (prompt : string) (agent_output : AgentOutput) (child : Trace) :
  child ∈ Trace.children (build_trace prompt agent_output) ->
  exists call, call ∈ default [] (toolCalls agent_output)
    /\ Trace.name child = Call.name call
    /\ Trace.output child =
       default JNull (tool_results_by_name agent_output !! Call.name call).
Proof.
  unfold build_trace. cbn [Trace.children].
  intros (call & -> & Hc)%list_elem_of_fmap. exists call. auto.
Qed.

(** C9.  A child of the trace whose name labels several entries of
    [toolResults] has the result of the last of them as its output, and a
    child whose name labels no entry has a null output. *)
Theorem C9_last_result_wins (prompt : string) (agent_output : AgentOutput)
    (child : Trace) :
  child ∈ Trace.children (build_trace prompt agent_output) ->
  (forall before r after,
      tool_results agent_output = before ++ r :: after ->
      ToolResult.toolName r = Trace.name child ->
      (forall r', r' ∈ after -> ToolResult.toolName r' <> Trace.name child) ->
      Trace.output child = result_of r)
  /\
  ((forall r, r ∈ tool_results agent_output ->
              ToolResult.toolName r <> Trace.name child) ->
   Trace.output child = JNull).
Proof.
  intros (call & _ & Hname & Hout)%build_trace_children.
  rewrite Hout, tool_results_by_name_lookup, <- Hname. split.
  - intros before r after Hsplit Hr Hafter.
    rewrite Hsplit, filter_app, filter_cons_True by exact Hr.
    rewrite (filter_none _ after) by exact Hafter.
    rewrite last_snoc. reflexivity.
  - intros Hnone. rewrite filter_none by exact Hnone. reflexivity.
Qed.

Lemma C9_last_result_wins_witness :
  Trace.output <$> Trace.children (build_trace "p" repeated_math_results)
    = [JInt 7; JInt 7; JNull]
  /\ Trace.output
       (Trace.mk (Some "math") "tool" (JObj [("inputParameters", JObj [])]) (JInt 7) [])
     = JInt 7.
Proof.
  split; [reflexivity |].
  refine (proj1 (C9_last_result_wins "p" repeated_math_results
            (Trace.mk (Some "math") "tool" (JObj [("inputParameters", JObj [])])
               (JInt 7) []) _)
          [ToolResult.mk (Some "math") (Some (JInt 42));
           ToolResult.mk (Some "filesystem") (Some (JStr "a.txt"))]
          (ToolResult.mk (Some "math") (Some (JInt 7))) [] _ _ _).
  - vm_compute. apply list_elem_of_here.
  - reflexivity.
  - reflexivity.
  - intros r' Hr'. inversion Hr'.
Defined.

(** ** The workflow *)

Lemma invoke_build_graph (state : PipelineState) :
  StateGraph.invoke _build_graph state = Ok (all_stages state).
Proof. reflexivity. Qed.

Lemma all_stages_fields (state : PipelineState) :
  PipelineState.step (all_stages state) = (PipelineState.step state + 10)%Z
  /\ PipelineState.artifacts (all_stages state)
     = PipelineState.artifacts state ++ reference_artifacts
  /\ PipelineState.tools_planned (all_stages state)
     = PipelineState.tools_planned state ++ reference_plan
  /\ PipelineState.prompt (all_stages state) = PipelineState.prompt state
  /\ PipelineState.context (all_stages state) = PipelineState.context state.
Proof.
  split; [| split; [| split; [| split]]].
  - cbn. lia.
  - cbn -[reference_artifacts]. rewrite <- !app_assoc. reflexivity.
  - cbn -[reference_plan]. rewrite <- !app_assoc. reflexivity.
  - reflexivity.
  - reflexivity.
Qed.

(** C7.  Each of the ten stages of the graph appends one planned call and
    one artifact description, adds one to the step counter and leaves the
    prompt, the context and the earlier entries as they were; a run from a
    fresh state returns with step 10 and with the ten artifacts and the
    ten planned calls in stage order. *)
Theorem C7_stages_append_and_count :
  Forall (fun node => stage_contract node.2) (StateGraph.nodes _build_graph)
  /\ length (StateGraph.nodes _build_graph) = 10
  /\ forall prompt context,
       exists final,
         StateGraph.invoke _build_graph (PipelineState.init prompt context) = Ok final
         /\ final = all_stages (PipelineState.init prompt context)
         /\ PipelineState.step final = 10%Z
         /\ PipelineState.artifacts final = reference_artifacts
         /\ length (PipelineState.artifacts final) = 10
         /\ PipelineState.tools_planned final = reference_plan
         /\ length (PipelineState.tools_planned final) = 10
         /\ PipelineState.prompt final = prompt
         /\ PipelineState.context final = context.
Proof.
  split; [| split].
  - cbv [_build_graph StateGraph.nodes StateGraph.add_node StateGraph.add_edge
         StateGraph.set_entry_point StateGraph.set_finish_point StateGraph.new app].
    repeat (apply Forall_cons_2; [stage_contract_tac |]). apply Forall_nil_2.
  - reflexivity.
  - intros prompt context. eexists. split; [apply invoke_build_graph |].
    repeat split; reflexivity.
Qed.

(** *** Runs of the pipeline *)

Lemma pipeline_payload_cached (invoke_returns_dict : bool) (prompt : string)
    (context : option pydict) (g : option StateGraph) :
  graph_cached g ->
  pipeline_payload invoke_returns_dict prompt context g
  = (Ok (reference_payload prompt), Some _build_graph).
Proof.
  intros [-> | ->]; unfold pipeline_payload;
    rewrite invoke_build_graph; destruct invoke_returns_dict; reflexivity.
Qed.

Lemma run_langraph_pipeline_cached (json_dumps : json -> string)
    (invoke_returns_dict : bool) (prompt : string)
    (context : option pydict) (g : option StateGraph) :
  graph_cached g ->
  run_langraph_pipeline json_dumps invoke_returns_dict prompt context g
  = (Ok (json_dumps (reference_payload prompt)), Some _build_graph).
Proof.
  intros Hg. unfold run_langraph_pipeline.
  rewrite pipeline_payload_cached by exact Hg. reflexivity.
Qed.

Lemma run_many_cached (json_dumps : json -> string) (invoke_returns_dict : bool)
    (calls : list (string * option pydict)) (g : option StateGraph) :
  graph_cached g ->
  graph_cached (run_many json_dumps invoke_returns_dict calls g).2.
Proof.
  revert g. induction calls as [| [prompt context] calls IH]; intros g Hg;
    [exact Hg |].
  cbn [run_many]. rewrite run_langraph_pipeline_cached by exact Hg.
  specialize (IH (Some _build_graph) (or_intror eq_refl)).
  destruct (run_many json_dumps invoke_returns_dict calls (Some _build_graph)).
  exact IH.
Qed.

(** C8.  Two calls with the same prompt and context, anywhere in the life
    of a process, return the same string, built from the same payload with
    the same artifacts and plan; both calls do return. *)
Theorem C8_same_input_same_output (json_dumps : json -> string)
    (invoke_returns_dict : bool) (prompt : string) (context : option pydict)
    (earlier between : list (string * option pydict)) :
  let run := run_langraph_pipeline json_dumps invoke_returns_dict in
  let payload := pipeline_payload invoke_returns_dict in
  let g0 := (run_many json_dumps invoke_returns_dict earlier None).2 in
  let g1 := (run prompt context g0).2 in
  let g2 := (run_many json_dumps invoke_returns_dict between g1).2 in
  (run prompt context g0).1 = (run prompt context g2).1
  /\ (payload prompt context g0).1 = (payload prompt context g2).1
  /\ exists p, (payload prompt context g0).1 = Ok p
            /\ (run prompt context g0).1 = Ok (json_dumps p).
Proof.
  intros run payload g0 g1 g2.
  assert (H0 : graph_cached g0) by (apply run_many_cached; left; reflexivity).
  assert (H1 : graph_cached g1).
  { unfold g1, run. rewrite run_langraph_pipeline_cached by exact H0.
    right; reflexivity. }
  assert (H2 : graph_cached g2) by (apply run_many_cached; exact H1).
  unfold run, payload.
  rewrite !run_langraph_pipeline_cached, !pipeline_payload_cached by assumption.
  split; [reflexivity |]. split; [reflexivity |].
  eexists. split; reflexivity.
Qed.

(** C10.  The artifacts and the plan of the payload are two constants: any
    call, whatever its prompt and context and whatever ran before it,
    returns them, next to the prompt it was given. *)
Theorem C10_plan_independent_of_input (json_dumps : json -> string)
    (invoke_returns_dict : bool) :
  exists artifacts plan : json,
    forall (prompt : string) (context : option pydict)
           (earlier : list (string * option pydict)),
      let g := (run_many json_dumps invoke_returns_dict earlier None).2 in
      let payload :=
        JObj [("prompt", JStr prompt); ("artifacts", artifacts); ("plan", plan)] in
      (pipeline_payload invoke_returns_dict prompt context g).1 = Ok payload
      /\ (run_langraph_pipeline json_dumps invoke_returns_dict prompt context g).1
         = Ok (json_dumps payload).
Proof.
  exists (JArr (JStr <$> reference_artifacts)), (JArr reference_plan).
  intros prompt context earlier g payload.
  assert (Hg : graph_cached g) by (apply run_many_cached; left; reflexivity).
  rewrite run_langraph_pipeline_cached, pipeline_payload_cached by exact Hg.
  split; reflexivity.
Qed.

Example two_prompts_same_plan :
  dict_get
    match (pipeline_payload true "build a dataset" None None).1 with
    | Ok (JObj fields) => fields
    | _ => []
    end "plan" JNull
  = dict_get
      match (pipeline_payload false "something else" (Some [("k", JInt 1)])
               (Some _build_graph)).1 with
      | Ok (JObj fields) => fields
      | _ => []
      end "plan" JNull.
Proof. reflexivity. Qed.

(** * Further properties of the scorers *)

(** ** Tool selection *)

Lemma difference_empty_iff (X Y : gset string) : X ∖ Y = ∅ <-> X ⊆ Y.
Proof.
  split.
  - intros He x Hx. destruct (decide (x ∈ Y)) as [Hy | Hy]; [exact Hy |].
    assert (Hd : x ∈ X ∖ Y) by (apply elem_of_difference; auto).
    rewrite He in Hd. destruct (not_elem_of_empty x Hd).
  - intros Hsub. apply set_eq. intros x.
    rewrite elem_of_difference. split.
    + intros [Hx Hy]. destruct (Hy (Hsub x Hx)).
    + intros Hx. destruct (not_elem_of_empty x Hx).
Qed.

Lemma unknown_names_difference (tools_called available : list ToolCall) :
  unknown_names tools_called available
  = name_set tools_called ∖ name_set available.
Proof.
  apply set_eq. intros n.
  rewrite elem_of_unknown_names, elem_of_difference.
  unfold name_set. rewrite !elem_of_list_to_set. reflexivity.
Qed.

Lemma unknown_names_empty_inv (tools_called available : list ToolCall) :
  unknown_names tools_called available = ∅ ->
  forall t, t ∈ tools_called -> ToolCall.name t ∈ ToolCall.name <$> available.
Proof.
  intros He t Ht.
  destruct (decide (ToolCall.name t ∈ ToolCall.name <$> available)) as [H | H];
    [exact H | exfalso].
  assert (Hin : ToolCall.name t ∈ unknown_names tools_called available).
  { apply elem_of_unknown_names. split; [| exact H].
    apply list_elem_of_fmap. eauto. }
  rewrite He in Hin. set_solver.
Qed.

Lemma name_set_nil_iff (tools : list ToolCall) : name_set tools = ∅ <-> tools = [].
Proof.
  split; [| intros ->; reflexivity].
  destruct tools as [| t tools]; [reflexivity |].
  unfold name_set. rewrite fmap_cons. cbn [list_to_set]. set_solver.
Qed.

Lemma nonempty_sorted (s : gset string) :
  nonempty (sorted s) = bool_decide (s <> ∅).
Proof.
  destruct (nonempty (sorted s)) eqn:E; symmetry.
  - apply bool_decide_eq_true. rewrite nonempty_true, sorted_nil in E. exact E.
  - apply bool_decide_eq_false. rewrite nonempty_false, sorted_nil in E. tauto.
Qed.

(** The score in terms of the three name sets alone. *)
Lemma selection_score_one_iff (self : LocalToolCorrectnessMetric)
    (tools_called available : list ToolCall) :
  available <> [] ->
  score (_compute_selection_score self tools_called (Some available)) = 1%float
  <->
  name_set tools_called ⊆ name_set available
  /\ match should_exact_match self, expected_tools self with
     | true, Some expected => name_set tools_called = name_set expected
     | _, _ => True
     end.
Proof.
  intros Hav.
  destruct (decide (unknown_names tools_called available = ∅)) as [Hk | Hu].
  - rewrite selection_score_known by assumption.
    assert (Hsub : name_set tools_called ⊆ name_set available).
    { rewrite unknown_names_difference in Hk. by apply difference_empty_iff. }
    destruct (should_exact_match self), (expected_tools self) as [expected |];
      cbv zeta; try (split; [auto | reflexivity]).
    rewrite !nonempty_sorted.
    destruct (decide (name_set tools_called = name_set expected)) as [E | NE].
    + rewrite E, difference_diag_L.
      rewrite bool_decide_eq_false_2 by tauto. simpl.
      split; [intros _; split; [by rewrite <- E | reflexivity] | reflexivity].
    + assert (D : bool_decide (name_set expected ∖ name_set tools_called <> ∅)
                  || bool_decide (name_set tools_called ∖ name_set expected <> ∅)
                  = true).
      { apply orb_true_iff.
        destruct (decide (name_set expected ∖ name_set tools_called = ∅)) as [D1 | D1];
          [| left; by apply bool_decide_eq_true].
        right. apply bool_decide_eq_true. intros D2. apply NE.
        apply difference_empty_iff in D1, D2.
        apply set_eq. intros x. split; [apply D2 | apply D1]. }
      rewrite D. simpl. split.
      * intros H. destruct (float_one_ne_zero (eq_sym H)).
      * intros [_ E]. contradiction.
  - rewrite selection_score_unknown by assumption. simpl. split.
    + intros H. destruct (float_one_ne_zero (eq_sym H)).
    + intros [Hsub _]. exfalso. apply Hu.
      rewrite unknown_names_difference. by apply difference_empty_iff.
Qed.

(** X1.  In exact-match mode with an expectation and a non-empty
    catalogue, the score is 1.0 exactly when every called name is in the
    catalogue and the called names and the expected names are the same
    set. *)
Theorem selection_exact_mode_iff (self : LocalToolCorrectnessMetric)
    (tools_called available expected : list ToolCall) :
  available <> [] ->
  should_exact_match self = true ->
  expected_tools self = Some expected ->
  score (_compute_selection_score self tools_called (Some available)) = 1%float
  <->
  (forall t, t ∈ tools_called -> ToolCall.name t ∈ ToolCall.name <$> available)
  /\ name_set tools_called = name_set expected.
Proof.
  intros Hav Hexact Hexp.
  rewrite selection_score_one_iff by exact Hav. rewrite Hexact, Hexp.
  unfold name_set. split; intros [Hsub Heq]; (split; [| exact Heq]).
  - intros t Ht. specialize (Hsub (ToolCall.name t)).
    rewrite !elem_of_list_to_set in Hsub. apply Hsub.
    apply list_elem_of_fmap. eauto.
  - intros n. rewrite !elem_of_list_to_set.
    intros (t & -> & Ht)%list_elem_of_fmap. auto.
Qed.

Lemma selection_exact_mode_iff_witness :
  score (_compute_selection_score
           {| should_exact_match := true;
              expected_tools := Some [tc "rag"; tc "math"] |}
           [tc "math"; tc "rag"; tc "math"]
           (Some [tc "math"; tc "filesystem"; tc "rag"])) = 1%float
  <->
  (forall t, t ∈ [tc "math"; tc "rag"; tc "math"] ->
             ToolCall.name t ∈ ToolCall.name <$> [tc "math"; tc "filesystem"; tc "rag"])
  /\ name_set [tc "math"; tc "rag"; tc "math"] = name_set [tc "rag"; tc "math"].
Proof.
  apply (selection_exact_mode_iff
           {| should_exact_match := true;
              expected_tools := Some [tc "rag"; tc "math"] |}
           [tc "math"; tc "rag"; tc "math"]
           [tc "math"; tc "filesystem"; tc "rag"] [tc "rag"; tc "math"]).
  - discriminate.
  - reflexivity.
  - reflexivity.
Defined.

(** X2.  Outside exact-match mode, or when the metric carries no
    expectation, a non-empty catalogue gives 1.0 exactly when every called
    name is in the catalogue. *)
Theorem selection_lenient_mode_iff (self : LocalToolCorrectnessMetric)
    (tools_called available : list ToolCall) :
  available <> [] ->
  should_exact_match self = false \/ expected_tools self = None ->
  score (_compute_selection_score self tools_called (Some available)) = 1%float
  <->
  forall t, t ∈ tools_called -> ToolCall.name t ∈ ToolCall.name <$> available.
Proof.
  intros Hav Hmode.
  rewrite selection_score_one_iff by exact Hav.
  assert (Hm : match should_exact_match self, expected_tools self with
               | true, Some expected => name_set tools_called = name_set expected
               | _, _ => True
               end <-> True).
  { destruct Hmode as [-> | ->]; [tauto |].
    destruct (should_exact_match self); tauto. }
  rewrite Hm. unfold name_set. split.
  - intros [Hsub _] t Ht. specialize (Hsub (ToolCall.name t)).
    rewrite !elem_of_list_to_set in Hsub. apply Hsub.
    apply list_elem_of_fmap. eauto.
  - intros H. split; [| exact I]. intros n. rewrite !elem_of_list_to_set.
    intros (t & -> & Ht)%list_elem_of_fmap. auto.
Qed.

Lemma selection_lenient_mode_iff_witness :
  score (_compute_selection_score
           {| should_exact_match := true; expected_tools := None |}
           [tc "rag"; tc "rag"]
           (Some [tc "math"; tc "filesystem"; tc "rag"])) = 1%float
  <->
  forall t, t ∈ [tc "rag"; tc "rag"] ->
            ToolCall.name t ∈ ToolCall.name <$> [tc "math"; tc "filesystem"; tc "rag"].
Proof.
  apply (selection_lenient_mode_iff
           {| should_exact_match := true; expected_tools := None |}
           [tc "rag"; tc "rag"] [tc "math"; tc "filesystem"; tc "rag"]).
  - discriminate.
  - right. reflexivity.
Defined.

(** X3.  The verdict, score and reason alike, depends only on the sets of
    names involved: the order of the calls, repeated calls, the parameters
    of any tool call and the order of the catalogue and of the expectation
    play no part. *)
Theorem selection_depends_on_name_sets (exact : bool)
    (expected expected' : option (list ToolCall))
    (tools_called tools_called' available available' : list ToolCall) :
  same_expected_names expected expected' ->
  name_set tools_called = name_set tools_called' ->
  name_set available = name_set available' ->
  _compute_selection_score
    {| should_exact_match := exact; expected_tools := expected |}
    tools_called (Some available)
  = _compute_selection_score
      {| should_exact_match := exact; expected_tools := expected' |}
      tools_called' (Some available').
Proof.
  intros Hexp Hcalled Hav.
  destruct (decide (available = [])) as [-> | Hne].
  - symmetry in Hav. apply name_set_nil_iff in Hav as ->. reflexivity.
  - assert (Hne' : available' <> []).
    { intros ->. apply Hne. by apply name_set_nil_iff. }
    assert (Hun : unknown_names tools_called available
                  = unknown_names tools_called' available').
    { rewrite !unknown_names_difference, Hcalled, Hav. reflexivity. }
    destruct (decide (unknown_names tools_called available = ∅)) as [Hk | Hu].
    + rewrite !selection_score_known by (assumption || congruence).
      cbn [should_exact_match expected_tools].
      destruct Hexp as [e e' He |]; [| reflexivity].
      destruct exact; [| reflexivity].
      cbv zeta. rewrite Hcalled, He. reflexivity.
    + rewrite !selection_score_unknown by (assumption || congruence).
      rewrite Hun. reflexivity.
Qed.

Lemma selection_depends_on_name_sets_witness :
  _compute_selection_score
    {| should_exact_match := true;
       expected_tools := Some [tc "rag"; tc "math"] |}
    [tc "web"; tc "math"; tc "web"] (Some [tc "math"; tc "rag"])
  = _compute_selection_score
      {| should_exact_match := true;
         expected_tools :=
           Some [ToolCall.mk "math" [("a", JInt 15)]; tc "rag"; tc "math"] |}
      [ToolCall.mk "math" [("b", JInt 27)]; tc "web"]
      (Some [tc "rag"; tc "math"; tc "rag"]).
Proof.
  apply (selection_depends_on_name_sets true
           (Some [tc "rag"; tc "math"])
           (Some [ToolCall.mk "math" [("a", JInt 15)]; tc "rag"; tc "math"])
           [tc "web"; tc "math"; tc "web"]
           [ToolCall.mk "math" [("b", JInt 27)]; tc "web"]
           [tc "math"; tc "rag"] [tc "rag"; tc "math"; tc "rag"]).
  - constructor. unfold name_set. simpl. set_solver.
  - unfold name_set. simpl. set_solver.
  - unfold name_set. simpl. set_solver.
Defined.

(** X4.  When every called name is in the catalogue and, in exact-match
    mode, the called names differ from the expected ones, the score is 0.0
    and the reason is built from two lists: the expected names that were
    not called and the called names that were not expected, each without
    repetition and in increasing order; an empty list is left out of the
    reason. *)
Theorem selection_mismatch_reason_lists (self : LocalToolCorrectnessMetric)
    (tools_called available expected : list ToolCall) :
  available <> [] ->
  (forall t, t ∈ tools_called -> ToolCall.name t ∈ ToolCall.name <$> available) ->
  should_exact_match self = true ->
  expected_tools self = Some expected ->
  name_set tools_called <> name_set expected ->
  exists missing extra : list string,
    _compute_selection_score self tools_called (Some available) =
      {| score := 0;
         reason := "Tool selection mismatch: "
                   +:+ join "; " (mismatch_details missing extra) +:+ "." |}
    /\ (forall n, n ∈ missing <->
          n ∈ ToolCall.name <$> expected /\ n ∉ ToolCall.name <$> tools_called)
    /\ (forall n, n ∈ extra <->
          n ∈ ToolCall.name <$> tools_called /\ n ∉ ToolCall.name <$> expected)
    /\ StronglySorted str_lt missing
    /\ StronglySorted str_lt extra
    /\ (missing <> [] \/ extra <> []).
Proof.
  intros Hav Hknown Hexact Hexp Hne.
  exists (sorted (name_set expected ∖ name_set tools_called)),
         (sorted (name_set tools_called ∖ name_set expected)).
  assert (Hmis : sorted (name_set expected ∖ name_set tools_called) <> []
                 \/ sorted (name_set tools_called ∖ name_set expected) <> []).
  { rewrite !sorted_nil.
    destruct (decide (name_set expected ∖ name_set tools_called = ∅)) as [D1 | D1];
      [| left; exact D1].
    right. intros D2. apply Hne.
    apply difference_empty_iff in D1, D2.
    apply set_eq. intros x. split; [apply D2 | apply D1]. }
  split; [| split; [| split; [| split; [| split]]]].
  - rewrite selection_score_known by auto using unknown_names_empty.
    rewrite Hexact, Hexp. cbv zeta.
    assert (E : nonempty (sorted (name_set expected ∖ name_set tools_called))
                || nonempty (sorted (name_set tools_called ∖ name_set expected))
                = true).
    { apply orb_true_iff. rewrite !nonempty_true. exact Hmis. }
    rewrite E. reflexivity.
  - intros n. rewrite elem_of_sorted, elem_of_difference.
    unfold name_set. rewrite !elem_of_list_to_set. reflexivity.
  - intros n. rewrite elem_of_sorted, elem_of_difference.
    unfold name_set. rewrite !elem_of_list_to_set. reflexivity.
  - apply sorted_increasing.
  - apply sorted_increasing.
  - exact Hmis.
Qed.

Lemma selection_mismatch_reason_lists_witness :
  exists missing extra : list string,
    _compute_selection_score
      {| should_exact_match := true;
         expected_tools := Some [tc "rag"; tc "math"] |}
      [tc "filesystem"] (Some [tc "math"; tc "filesystem"; tc "rag"]) =
      {| score := 0;
         reason := "Tool selection mismatch: "
                   +:+ join "; " (mismatch_details missing extra) +:+ "." |}
    /\ (forall n, n ∈ missing <->
          n ∈ ToolCall.name <$> [tc "rag"; tc "math"]
          /\ n ∉ ToolCall.name <$> [tc "filesystem"])
    /\ (forall n, n ∈ extra <->
          n ∈ ToolCall.name <$> [tc "filesystem"]
          /\ n ∉ ToolCall.name <$> [tc "rag"; tc "math"])
    /\ StronglySorted str_lt missing
    /\ StronglySorted str_lt extra
    /\ (missing <> [] \/ extra <> []).
Proof.
  apply (selection_mismatch_reason_lists
           {| should_exact_match := true;
              expected_tools := Some [tc "rag"; tc "math"] |}
           [tc "filesystem"] [tc "math"; tc "filesystem"; tc "rag"]
           [tc "rag"; tc "math"]).
  - discriminate.
  - intros t Ht. apply list_elem_of_In in Ht. simpl in Ht.
    destruct Ht as [<- | []]. apply list_elem_of_In. simpl. tauto.
  - reflexivity.
  - reflexivity.
  - unfold name_set. simpl. intros E.
    assert (H : "rag" ∈ ({["filesystem"]} ∪ ∅ : gset string)).
    { rewrite E. set_solver. }
    set_solver.
Defined.

(** ** Step efficiency *)

Lemma score_trace_named_witness :
  exists s,
    _score_trace {| expectations := StepExpectations.mk ["filesystem"; "rag"] |}
      (Some (build_trace "p"
         {| response := None;
            toolCalls := Some [Call.mk (Some "filesystem") None;
                               Call.mk (Some "rag") None];
            metadata := None |})) = Ok s
    /\ (["filesystem"; "rag"] = ["filesystem"; "rag"] -> s =
          {| score := 1;
             reason := "Execution matched expected minimal tool sequence." |})
    /\ (["filesystem"; "rag"] <> ["filesystem"; "rag"] -> score s = 0%float)
    /\ (score s = 1%float <-> ["filesystem"; "rag"] = ["filesystem"; "rag"]).
Proof.
  apply (score_trace_named
           {| expectations := StepExpectations.mk ["filesystem"; "rag"] |}
           (Some (build_trace "p"
              {| response := None;
                 toolCalls := Some [Call.mk (Some "filesystem") None;
                                    Call.mk (Some "rag") None];
                 metadata := None |}))
           ["filesystem"; "rag"]).
  reflexivity.
Defined.

Lemma all_named_sequence (items : list (option string)) :
  None ∉ items -> exists names, items = Some <$> names.
Proof.
  induction items as [| [n |] items IH]; intros Hnone.
  - exists []. reflexivity.
  - destruct IH as [names ->].
    + intros Hin. apply Hnone. by right.
    + exists (n :: names). reflexivity.
  - exfalso. apply Hnone. left.
Qed.

(** X6.  The scorer returns a verdict exactly when every child of the
    trace carries a name or the observed sequence is the expected one; as
    the expected names are strings, this is: exactly when no child lacks a
    name.  Otherwise it raises the [TypeError] of [str.join]. *)
Theorem score_trace_returns_iff (self : LocalStepEfficiencyMetric)
    (trace : option Trace) :
  (exists s, _score_trace self trace = Ok s) <-> None ∉ tool_sequence_of trace.
Proof.
  split.
  - intros [s Hs] Hin.
    destruct (score_trace_nameless self trace Hin) as [i Hi]. congruence.
  - intros Hnone. destruct (all_named_sequence _ Hnone) as [observed Hseq].
    unfold _score_trace. rewrite Hseq.
    set (expected := StepExpectations.expected_tools (expectations self)).
    destruct (decide (Some <$> observed = Some <$> expected)); [eauto |].
    rewrite extra_names_named, join_any_named.
    destruct (nonempty (missing_names expected (Some <$> observed)));
      destruct (nonempty (Some <$> filter (fun n => n ∉ expected) observed));
      eexists; reflexivity.
Qed.

Lemma missing_names_none (expected observed : list string) :
  (forall n, n ∈ expected -> n ∈ observed) ->
  missing_names expected (Some <$> observed) = [].
Proof.
  intros Hall. unfold missing_names. apply filter_none.
  intros n Hn Hnot. apply Hnot. apply list_elem_of_fmap. eauto.
Qed.

(** X7.  When the observed names and the expected names have the same
    members but the two sequences differ (another order, or a step
    repeated), the score is 0.0 and the reason blames the order. *)
Theorem score_trace_same_members (self : LocalStepEfficiencyMetric)
    (trace : option Trace) (observed : list string) :
  let expected := StepExpectations.expected_tools (expectations self) in
  tool_sequence_of trace = Some <$> observed ->
  (forall n, n ∈ observed <-> n ∈ expected) ->
  observed <> expected ->
  _score_trace self trace =
    Ok {| score := 0;
          reason := "Trace deviated from expected sequence: tool order differed from expectation." |}.
Proof.
  intros expected Hseq Hmem Hne. unfold _score_trace. rewrite Hseq. fold expected.
  assert (NE : Some <$> observed <> Some <$> expected).
  { intros E. apply Hne. by apply (inj (fmap Some)) in E. }
  destruct (decide (Some <$> observed = Some <$> expected)); [contradiction |].
  rewrite missing_names_none by (intros m Hm; by apply Hmem).
  rewrite extra_names_named.
  rewrite (filter_none (fun m => m ∉ expected) observed)
    by (intros m Hm Hnot; apply Hnot; by apply Hmem).
  rewrite bool_decide_eq_true_2 by exact NE.
  reflexivity.
Qed.

Lemma score_trace_same_members_witness :
  _score_trace {| expectations := StepExpectations.mk ["filesystem"; "rag"] |}
    (Some (build_trace "p"
       {| response := None;
          toolCalls := Some [Call.mk (Some "rag") None;
                             Call.mk (Some "filesystem") None;
                             Call.mk (Some "rag") None];
          metadata := None |})) =
    Ok {| score := 0;
          reason := "Trace deviated from expected sequence: tool order differed from expectation." |}.
Proof.
  apply (score_trace_same_members
           {| expectations := StepExpectations.mk ["filesystem"; "rag"] |}
           (Some (build_trace "p"
              {| response := None;
                 toolCalls := Some [Call.mk (Some "rag") None;
                                    Call.mk (Some "filesystem") None;
                                    Call.mk (Some "rag") None];
                 metadata := None |}))
           ["rag"; "filesystem"; "rag"]).
  - reflexivity.
  - intros n. cbn [StepExpectations.expected_tools expectations].
    rewrite !elem_of_cons, !elem_of_nil. tauto.
  - discriminate.
Defined.

Lemma missing_names_all (expected : list string) :
  missing_names expected [] = expected.
Proof.
  unfold missing_names. induction expected as [| n expected IH]; [reflexivity |].
  rewrite filter_cons_True by apply not_elem_of_nil. by rewrite IH.
Qed.

(** X8.  A trace without children ([{}] included) scores 1.0 against an
    empty expectation; against any other expectation it scores 0.0 and the
    reason lists every expected name as missing, in the expected order. *)
Theorem score_trace_no_children (self : LocalStepEfficiencyMetric)
    (trace : option Trace) :
  trace_children trace = [] ->
  _score_trace self trace =
    Ok match StepExpectations.expected_tools (expectations self) with
       | [] => {| score := 1;
                  reason := "Execution matched expected minimal tool sequence." |}
       | expected =>
           {| score := 0;
              reason := "Trace deviated from expected sequence: missing "
                        +:+ join ", " expected +:+ "." |}
       end.
Proof.
  intros Hnil. unfold _score_trace, tool_sequence_of. rewrite Hnil.
  destruct (StepExpectations.expected_tools (expectations self)) as [| e es];
    [reflexivity |].
  rewrite fmap_nil, missing_names_all.
  destruct (decide ([] = Some <$> e :: es)) as [E | _]; [discriminate E |].
  reflexivity.
Qed.

Lemma score_trace_no_children_witness :
  _score_trace {| expectations := StepExpectations.mk ["filesystem"; "rag"] |} None =
    Ok {| score := 0;
          reason := "Trace deviated from expected sequence: missing filesystem, rag." |}.
Proof.
  apply (score_trace_no_children
           {| expectations := StepExpectations.mk ["filesystem"; "rag"] |} None).
  reflexivity.
Defined.

(** * Further properties of the trace model *)

Lemma observed_sequence_calls (prompt : string) (agent_output : AgentOutput) :
  observed_sequence prompt agent_output
  = Call.name <$> default [] (toolCalls agent_output).
Proof.
  unfold observed_sequence, tool_sequence_of, build_trace. simpl.
  rewrite <- list_fmap_compose. reflexivity.
Qed.

(** X9.  The trace has depth one: its root is the agent node, and its
    children, one per reported invocation, are tool nodes without children
    of their own. *)
Theorem build_trace_shape (prompt : string) (agent_output : AgentOutput) :
  let trace := build_trace prompt agent_output in
  Trace.type trace = "agent"
  /\ length (Trace.children trace) = length (default [] (toolCalls agent_output))
  /\ Forall (fun child => Trace.type child = "tool" /\ Trace.children child = [])
            (Trace.children trace)
  /\ (toolCalls agent_output = None -> Trace.children trace = []).
Proof.
  unfold build_trace. cbn [Trace.type Trace.children].
  split; [reflexivity |]. split; [apply length_fmap |]. split.
  - rewrite Forall_fmap. apply Forall_forall. intros call _. split; reflexivity.
  - intros ->. reflexivity.
Qed.

Lemma build_trace_shape_witness :
  Trace.children (build_trace "p"
    {| response := None; toolCalls := None; metadata := None |}) = [].
Proof.
  refine (proj2 (proj2 (proj2 (build_trace_shape "p"
    {| response := None; toolCalls := None; metadata := None |}))) _).
  reflexivity.
Defined.

(** X10.  Results are attached by name, not by position: two children of
    a trace that carry the same name carry the same output. *)
Theorem same_name_same_output (prompt : string) (agent_output : AgentOutput)
    (c1 c2 : Trace) :
  c1 ∈ Trace.children (build_trace prompt agent_output) ->
  c2 ∈ Trace.children (build_trace prompt agent_output) ->
  Trace.name c1 = Trace.name c2 ->
  Trace.output c1 = Trace.output c2.
Proof.
  intros (call1 & _ & Hn1 & ->)%build_trace_children
         (call2 & _ & Hn2 & ->)%build_trace_children Heq.
  rewrite <- Hn1, <- Hn2, Heq. reflexivity.
Qed.

Lemma same_name_same_output_witness :
  Trace.output
    (Trace.mk (Some "math") "tool" (JObj [("inputParameters", JObj [])]) (JInt 7) [])
  = Trace.output
      (Trace.mk (Some "math") "tool"
         (JObj [("inputParameters", JObj [("a", JInt 1)])]) (JInt 7) []).
Proof.
  apply (same_name_same_output "p"
           {| response := None;
              toolCalls := Some [Call.mk (Some "math") None;
                                 Call.mk (Some "math") (Some [("a", JInt 1)])];
              metadata := Some {| toolResults := Some
                [ToolResult.mk (Some "math") (Some (JInt 42));
                 ToolResult.mk (Some "math") (Some (JInt 7))] |} |}).
  - vm_compute. apply list_elem_of_here.
  - vm_compute. apply list_elem_of_further, list_elem_of_here.
  - reflexivity.
Defined.

(** X11.  The task read back from a trace built for a prompt is that
    prompt; from a test case without a trace it is the empty string. *)
Theorem extract_task_of_built_trace (prompt : string) (agent_output : AgentOutput) :
  _extract_task_from_trace (Some (build_trace prompt agent_output))
    = Some (JStr prompt)
  /\ _extract_task_from_trace None = Some (JStr "").
Proof. split; reflexivity. Qed.

Lemma named_only_filter (calls : list Call) :
  Some <$> named_only calls
  = filter (fun n => n <> None /\ n <> Some "") (Call.name <$> calls).
Proof.
  unfold named_only.
  induction calls as [| call calls IH]; [reflexivity |].
  rewrite fmap_cons, filter_cons. cbn [omap list_omap].
  destruct (Call.name call) as [n |].
  - destruct (decide (n = "")) as [-> | Hne].
    + rewrite decide_False by (intros [_ H]; by apply H). exact IH.
    + rewrite decide_True by (split; congruence).
      rewrite fmap_cons, IH. reflexivity.
  - rewrite decide_False by (intros [H _]; by apply H). exact IH.
Qed.

(** X12.  The names handed to the Tool-Selection Scorer are the observed
    sequence of the trace with the missing and empty names removed; when
    every reported invocation has a non-empty name the two scorers see the
    same names in the same order. *)
Theorem tools_called_within_observed (prompt : string) (agent_output : AgentOutput) :
  Some <$> (ToolCall.name <$> tools_called_of agent_output)
  = filter (fun n => n <> None /\ n <> Some "")
           (observed_sequence prompt agent_output)
  /\ (Forall (fun call => has_name call = true)
             (default [] (toolCalls agent_output)) ->
      observed_sequence prompt agent_output
      = Some <$> (ToolCall.name <$> tools_called_of agent_output)).
Proof.
  rewrite observed_sequence_calls.
  unfold tools_called_of. rewrite tools_called_names, named_only_filter.
  split; [reflexivity |].
  intros Hall. induction Hall as [| call calls Hcall _ IH]; [reflexivity |].
  apply has_name_spec in Hcall as (n & Hn & Hne).
  rewrite fmap_cons, filter_cons, Hn.
  rewrite decide_True by (split; congruence).
  rewrite <- IH. reflexivity.
Qed.

Lemma tools_called_within_observed_witness :
  observed_sequence "p"
    {| response := None;
       toolCalls := Some [Call.mk (Some "rag") None; Call.mk (Some "math") None];
       metadata := None |}
  = Some <$> (ToolCall.name <$> tools_called_of
       {| response := None;
          toolCalls := Some [Call.mk (Some "rag") None; Call.mk (Some "math") None];
          metadata := None |}).
Proof.
  refine (proj2 (tools_called_within_observed "p"
    {| response := None;
       toolCalls := Some [Call.mk (Some "rag") None; Call.mk (Some "math") None];
       metadata := None |}) _).
  repeat constructor.
Defined.

(** X13.  Without tool results (no metadata, no [toolResults] entry, or an
    empty list) every child of the trace has a null output. *)
Theorem no_results_null_outputs (prompt : string) (agent_output : AgentOutput) :
  tool_results agent_output = [] ->
  Forall (fun child => Trace.output child = JNull)
         (Trace.children (build_trace prompt agent_output)).
Proof.
  intros Hnil. apply Forall_forall. intros child Hc.
  apply build_trace_children in Hc as (call & _ & _ & ->).
  rewrite tool_results_by_name_lookup, Hnil. reflexivity.
Qed.

Lemma no_results_null_outputs_witness :
  Forall (fun child => Trace.output child = JNull)
         (Trace.children (build_trace "p"
            {| response := Some "ok";
               toolCalls := Some [Call.mk (Some "math") None];
               metadata := Some {| toolResults := None |} |})).
Proof.
  apply (no_results_null_outputs "p"
           {| response := Some "ok";
              toolCalls := Some [Call.mk (Some "math") None];
              metadata := Some {| toolResults := None |} |}).
  reflexivity.
Defined.

(** * The two scorers together *)

Lemma score_trace_one_inv (self : LocalStepEfficiencyMetric) (trace : option Trace)
    (s : ToolSelectionScore) :
  _score_trace self trace = Ok s ->
  score s = 1%float ->
  tool_sequence_of trace
  = Some <$> StepExpectations.expected_tools (expectations self).
Proof.
  unfold _score_trace.
  set (expected := StepExpectations.expected_tools (expectations self)).
  destruct (decide (tool_sequence_of trace = Some <$> expected)) as [E | NE];
    [auto |].
  intros Hs Hone. exfalso.
  destruct (nonempty (missing_names expected (tool_sequence_of trace)));
    destruct (nonempty (extra_names expected (tool_sequence_of trace)));
    try destruct (join_any ", " (extra_names expected (tool_sequence_of trace)));
    cbn in Hs; try discriminate Hs;
    injection Hs as <-; exact (float_one_ne_zero (eq_sym Hone)).
Qed.

Lemma named_only_all (calls : list Call) (names : list string) :
  Call.name <$> calls = Some <$> names ->
  Forall (fun n => n <> "") names ->
  named_only calls = names.
Proof.
  revert names. unfold named_only.
  induction calls as [| call calls IH]; intros [| n names] Heq Hne;
    try discriminate Heq; [reflexivity |].
  rewrite !fmap_cons in Heq. injection Heq as Hn Hrest.
  apply Forall_cons in Hne as [Hn0 Hne].
  cbn [omap list_omap]. rewrite Hn.
  rewrite decide_False by exact Hn0.
  cbn. f_equal. by apply IH.
Qed.

(** X14.  The Step-Efficiency Scorer is the stricter of the two.  For a
    reply scored against an expectation whose names are non-empty and
    belong to the catalogue, a step-efficiency score of 1.0 on the trace
    built from the reply entails a tool-selection score of 1.0 in
    exact-match mode on the called tools built from the same reply. *)
Theorem efficiency_entails_selection (prompt : string) (agent_output : AgentOutput)
    (expected available : list ToolCall) (s : ToolSelectionScore) :
  (forall t, t ∈ expected -> ToolCall.name t <> "") ->
  (forall t, t ∈ expected -> ToolCall.name t ∈ ToolCall.name <$> available) ->
  _score_trace
    {| expectations := StepExpectations.mk (ToolCall.name <$> expected) |}
    (Some (build_trace prompt agent_output)) = Ok s ->
  score s = 1%float ->
  score (_compute_selection_score
           {| should_exact_match := true; expected_tools := Some expected |}
           (tools_called_of agent_output) (Some available)) = 1%float.
Proof.
  intros Hnonempty Hcat Hs Hone.
  apply score_trace_one_inv in Hs; [| exact Hone].
  cbn [expectations StepExpectations.expected_tools] in Hs.
  fold (observed_sequence prompt agent_output) in Hs.
  rewrite observed_sequence_calls in Hs.
  assert (Hnames : ToolCall.name <$> tools_called_of agent_output
                   = ToolCall.name <$> expected).
  { unfold tools_called_of. rewrite tools_called_names.
    apply named_only_all; [exact Hs |].
    rewrite Forall_fmap. apply Forall_forall. intros t Ht. by apply Hnonempty. }
  destruct (decide (available = [])) as [-> | Hav]; [reflexivity |].
  apply selection_score_one_iff; [exact Hav |].
  cbn [should_exact_match expected_tools]. unfold name_set. rewrite Hnames.
  split; [| reflexivity].
  intros n. rewrite !elem_of_list_to_set.
  intros (t & -> & Ht)%list_elem_of_fmap. by apply Hcat.
Qed.

Lemma efficiency_entails_selection_witness :
  score (_compute_selection_score
           {| should_exact_match := true;
              expected_tools := Some [tc "filesystem"; tc "rag"] |}
           (tools_called_of
              {| response := None;
                 toolCalls := Some [Call.mk (Some "filesystem") None;
                                    Call.mk (Some "rag") None];
                 metadata := None |})
           (Some [tc "math"; tc "filesystem"; tc "rag"])) = 1%float.
Proof.
  apply (efficiency_entails_selection "p"
           {| response := None;
              toolCalls := Some [Call.mk (Some "filesystem") None;
                                 Call.mk (Some "rag") None];
              metadata := None |}
           [tc "filesystem"; tc "rag"] [tc "math"; tc "filesystem"; tc "rag"]
           {| score := 1;
              reason := "Execution matched expected minimal tool sequence." |}).
  - intros t Ht. apply list_elem_of_In in Ht. simpl in Ht.
    destruct Ht as [<- | [<- | []]]; discriminate.
  - intros t Ht. apply list_elem_of_In in Ht. simpl in Ht.
    destruct Ht as [<- | [<- | []]]; apply list_elem_of_In; simpl; tauto.
  - vm_compute. reflexivity.
  - reflexivity.
Defined.

(** * Further properties of the workflow *)

Lemma stages_keep_contract :
  Forall (fun node => stage_contract node.2) (StateGraph.nodes _build_graph).
Proof.
  cbv [_build_graph StateGraph.nodes StateGraph.add_node StateGraph.add_edge
       StateGraph.set_entry_point StateGraph.set_finish_point StateGraph.new app].
  repeat (apply Forall_cons_2; [stage_contract_tac |]). apply Forall_nil_2.
Qed.

(** X15.  A run of the graph is append-only from any state: the prompt,
    the context and whatever artifacts and planned calls the state already
    holds are kept, the ten artifacts and the ten planned calls are
    appended in stage order, and the step counter grows by ten. *)
Theorem invoke_appends_to_any_state (state : PipelineState) :
  exists final,
    StateGraph.invoke _build_graph state = Ok final
    /\ PipelineState.prompt final = PipelineState.prompt state
    /\ PipelineState.context final = PipelineState.context state
    /\ PipelineState.artifacts final
       = PipelineState.artifacts state ++ reference_artifacts
    /\ PipelineState.tools_planned final
       = PipelineState.tools_planned state ++ reference_plan
    /\ PipelineState.step final = (PipelineState.step state + 10)%Z.
Proof.
  exists (all_stages state). split; [apply invoke_build_graph |].
  destruct (all_stages_fields state) as (Hstep & Hart & Hplan & Hprompt & Hctx).
  auto.
Qed.

(** X16.  Whatever stages of the graph are applied to a fresh state, in
    whatever order and number, the step counter equals the number of
    stages applied, and so do the number of artifacts and the number of
    planned calls; the prompt and the context are those of the start. *)
Theorem step_counts_stages (stages : list (PipelineState -> PipelineState))
    (prompt : string) (context : pydict) :
  Forall (fun stage => stage ∈ (snd <$> StateGraph.nodes _build_graph)) stages ->
  let final := apply_stages stages (PipelineState.init prompt context) in
  PipelineState.step final = Z.of_nat (length stages)
  /\ length (PipelineState.artifacts final) = length stages
  /\ length (PipelineState.tools_planned final) = length stages
  /\ PipelineState.prompt final = prompt
  /\ PipelineState.context final = context.
Proof.
  intros Hstages.
  assert (Hgen : forall state,
    let final := apply_stages stages state in
    PipelineState.step final
      = (PipelineState.step state + Z.of_nat (length stages))%Z
    /\ length (PipelineState.artifacts final)
      = (length (PipelineState.artifacts state) + length stages)%nat
    /\ length (PipelineState.tools_planned final)
      = (length (PipelineState.tools_planned state) + length stages)%nat
    /\ PipelineState.prompt final = PipelineState.prompt state
    /\ PipelineState.context final = PipelineState.context state).
  { induction Hstages as [| stage stages Hstage _ IH]; intros state.
    - cbn. repeat split; lia.
    - apply list_elem_of_fmap in Hstage as (node & -> & Hnode).
      pose proof (proj1 (Forall_forall _ _) stages_keep_contract node Hnode)
        as (tool & parameters & description & Hcontract & _).
      destruct (Hcontract state) as (Hplan & Hart & Hstep & Hprompt & Hctx).
      specialize (IH (node.2 state)).
      cbn [apply_stages foldl] in *. fold (apply_stages stages (node.2 state)) in *.
      destruct IH as (IHstep & IHart & IHplan & IHprompt & IHctx).
      rewrite IHstep, IHart, IHplan, IHprompt, IHctx.
      rewrite Hplan, Hart, Hstep, Hprompt, Hctx, !length_app.
      cbn [length]. repeat split; lia. }
  intros final. destruct (Hgen (PipelineState.init prompt context))
    as (Hstep & Hart & Hplan & Hprompt & Hctx).
  cbn in Hstep, Hart, Hplan, Hprompt, Hctx. auto.
Qed.

Lemma step_counts_stages_witness :
  PipelineState.step
    (apply_stages [_rag_stage; _final_stage; _rag_stage]
       (PipelineState.init "p" [])) = 3%Z.
Proof.
  refine (proj1 (step_counts_stages [_rag_stage; _final_stage; _rag_stage] "p" [] _)).
  repeat apply Forall_cons_2; try apply Forall_nil_2;
    apply list_elem_of_In; cbn; tauto.
Defined.

Lemma run_many_from_cache (json_dumps : json -> string) (invoke_returns_dict : bool)
    (calls : list (string * option pydict)) (g : option StateGraph) :
  graph_cached g ->
  run_many json_dumps invoke_returns_dict calls g
  = ((fun call => Ok (json_dumps (reference_payload call.1))) <$> calls,
     match calls with
     | [] => g
     | _ :: _ => Some _build_graph
     end).
Proof.
  revert g. induction calls as [| [prompt context] calls IH]; intros g Hg;
    [reflexivity |].
  cbn [run_many]. rewrite run_langraph_pipeline_cached by exact Hg.
  rewrite (IH (Some _build_graph)) by (right; reflexivity).
  rewrite fmap_cons. destruct calls; reflexivity.
Qed.

(** X17.  In one process, starting with no compiled graph, a series of
    calls all return: each call yields the serialised payload of its own
    prompt, with the same artifacts and plan, whatever its context; the
    graph is built by the first call and is the one held afterwards. *)
Theorem run_many_outputs (json_dumps : json -> string) (invoke_returns_dict : bool)
    (calls : list (string * option pydict)) :
  run_many json_dumps invoke_returns_dict calls None
  = ((fun call => Ok (json_dumps (reference_payload call.1))) <$> calls,
     match calls with
     | [] => None
     | _ :: _ => Some _build_graph
     end).
Proof. apply run_many_from_cache. left. reflexivity. Qed.

Lemma reference_plan_reads_follow_writes : reads_follow_writes reference_plan.
Proof.
  intros i entry Hi Hread.
  do 10 (destruct i as [| i];
    [ injection Hi as <-;
      first
        [ discriminate Hread
        | exists 0%nat; eexists;
          split; [lia |]; split; [reflexivity |]; split; reflexivity
        | exists 1%nat; eexists;
          split; [lia |]; split; [reflexivity |]; split; reflexivity
        | exists 6%nat; eexists;
          split; [lia |]; split; [reflexivity |]; split; reflexivity ]
    | ]).
  discriminate Hi.
Qed.

(** X18.  The plan of every run can be carried out in order: each of its
    ten entries that reads a file comes after an entry that writes the
    same path. *)
Theorem plan_reads_follow_writes (json_dumps : json -> string)
    (invoke_returns_dict : bool) (prompt : string) (context : option pydict)
    (earlier : list (string * option pydict)) :
  let g := (run_many json_dumps invoke_returns_dict earlier None).2 in
  exists plan : list json,
    (pipeline_payload invoke_returns_dict prompt context g).1
    = Ok (JObj [("prompt", JStr prompt);
                ("artifacts", JArr (JStr <$> reference_artifacts));
                ("plan", JArr plan)])
    /\ length plan = 10
    /\ reads_follow_writes plan.
Proof.
  intros g. exists reference_plan.
  assert (Hg : graph_cached g) by (apply run_many_cached; left; reflexivity).
  rewrite pipeline_payload_cached by exact Hg.
  split; [reflexivity |]. split; [reflexivity |].
  apply reference_plan_reads_follow_writes.
Qed.

(** X19.  Both scorers are binary: the score of a tool-selection verdict,
    and of any step-efficiency verdict that is returned, is 1.0 or 0.0. *)
Theorem scores_are_binary :
  (forall self tools_called available_tools,
      let s := _compute_selection_score self tools_called available_tools in
      score s = 1%float \/ score s = 0%float)
  /\
  (forall self trace s,
      _score_trace self trace = Ok s ->
      score s = 1%float \/ score s = 0%float).
Proof.
  split.
  - intros self tools_called [[| a available] |]; try (left; reflexivity).
    cbv zeta.
    destruct (decide (unknown_names tools_called (a :: available) = ∅)) as [Hk | Hu].
    + rewrite selection_score_known by (assumption || discriminate).
      destruct (should_exact_match self), (expected_tools self) as [expected |];
        cbv zeta; try (left; reflexivity).
      destruct (nonempty _ || nonempty _); [right | left]; reflexivity.
    + rewrite selection_score_unknown by (assumption || discriminate).
      right. reflexivity.
  - intros self trace s. unfold _score_trace.
    set (expected := StepExpectations.expected_tools (expectations self)).
    destruct (decide (tool_sequence_of trace = Some <$> expected)) as [E | NE].
    + intros [= <-]. left. reflexivity.
    + intros Hs. right.
      destruct (nonempty (missing_names expected (tool_sequence_of trace)));
        destruct (nonempty (extra_names expected (tool_sequence_of trace)));
        try destruct (join_any ", " (extra_names expected (tool_sequence_of trace)));
        cbn in Hs; try discriminate Hs;
        injection Hs as <-; reflexivity.
Qed.

Lemma scores_are_binary_witness :
  score {| score := 0;
           reason := "Trace deviated from expected sequence: missing math." |}
    = 1%float
  \/ score {| score := 0;
              reason := "Trace deviated from expected sequence: missing math." |}
    = 0%float.
Proof.
  apply (proj2 scores_are_binary
           {| expectations := StepExpectations.mk ["math"] |} None).
  vm_compute. reflexivity.
Defined.

(** * Further properties of the step-efficiency reason *)

Lemma missing_names_named (expected observed : list string) :
  missing_names expected (Some <$> observed)
  = filter (fun n => n ∉ observed) expected.
Proof.
  unfold missing_names. apply list_filter_iff. intros n. split.
  - intros H Hn. apply H. apply list_elem_of_fmap. eauto.
  - intros H (m & [= ->] & Hm)%list_elem_of_fmap. contradiction.
Qed.

(** X20.  On a trace whose children all carry a name and whose observed
    names are not the expected sequence, the reason lists the expected
    names that were never observed, in the expected order, then the
    observed names that were never expected, in the observed order, each
    as often as it occurs; when both lists are empty it blames the
    order. *)
Theorem score_trace_mismatch_reason (self : LocalStepEfficiencyMetric)
    (trace : option Trace) (observed : list string) :
  let expected := StepExpectations.expected_tools (expectations self) in
  tool_sequence_of trace = Some <$> observed ->
  observed <> expected ->
  _score_trace self trace =
    Ok {| score := 0;
          reason := "Trace deviated from expected sequence: "
                    +:+ join "; " (efficiency_details expected observed) +:+ "." |}.
Proof.
  intros expected Hseq Hne. unfold _score_trace. rewrite Hseq. fold expected.
  assert (NE : Some <$> observed <> Some <$> expected).
  { intros E. apply Hne. by apply (inj (fmap Some)) in E. }
  destruct (decide (Some <$> observed = Some <$> expected)); [contradiction |].
  rewrite missing_names_named, extra_names_named, join_any_named.
  rewrite bool_decide_eq_true_2 by exact NE.
  unfold efficiency_details.
  destruct (filter (fun n => n ∉ observed) expected) as [| m ms];
    destruct (filter (fun n => n ∉ expected) observed) as [| x xs];
    reflexivity.
Qed.

Lemma score_trace_mismatch_reason_witness :
  _score_trace {| expectations := StepExpectations.mk ["filesystem"; "rag"] |}
    (Some (build_trace "p"
       {| response := None;
          toolCalls := Some [Call.mk (Some "math") None; Call.mk (Some "rag") None;
                             Call.mk (Some "math") None];
          metadata := None |})) =
    Ok {| score := 0;
          reason := "Trace deviated from expected sequence: "
                    +:+ join "; "
                          (efficiency_details ["filesystem"; "rag"]
                             ["math"; "rag"; "math"]) +:+ "." |}.
Proof.
  apply (score_trace_mismatch_reason
           {| expectations := StepExpectations.mk ["filesystem"; "rag"] |}
           (Some (build_trace "p"
              {| response := None;
                 toolCalls := Some [Call.mk (Some "math") None;
                                    Call.mk (Some "rag") None;
                                    Call.mk (Some "math") None];
                 metadata := None |}))
           ["math"; "rag"; "math"]).
  - reflexivity.
  - discriminate.
Defined.

Example efficiency_details_repeats :
  join "; " (efficiency_details ["filesystem"; "rag"] ["math"; "rag"; "math"])
  = "missing filesystem; extra math, math".
Proof. vm_compute. reflexivity. Qed.

(** X21.  The step-efficiency verdict on a reply depends only on the names
    of the reported invocations, in order: the prompt, the response, the
    parameters of the calls and the tool results play no part. *)
Theorem efficiency_depends_on_call_names (self : LocalStepEfficiencyMetric)
    (prompt prompt' : string) (agent_output agent_output' : AgentOutput) :
  Call.name <$> default [] (toolCalls agent_output)
  = Call.name <$> default [] (toolCalls agent_output') ->
  _score_trace self (Some (build_trace prompt agent_output))
  = _score_trace self (Some (build_trace prompt' agent_output')).
Proof.
  intros Hnames. unfold _score_trace.
  fold (observed_sequence prompt agent_output).
  fold (observed_sequence prompt' agent_output').
  rewrite !observed_sequence_calls, Hnames. reflexivity.
Qed.

Lemma efficiency_depends_on_call_names_witness :
  _score_trace {| expectations := StepExpectations.mk ["math"] |}
    (Some (build_trace "first"
       {| response := Some "42";
          toolCalls := Some [Call.mk (Some "math") (Some [("a", JInt 15)])];
          metadata := Some {| toolResults := Some
            [ToolResult.mk (Some "math") (Some (JInt 42))] |} |}))
  = _score_trace {| expectations := StepExpectations.mk ["math"] |}
      (Some (build_trace "second"
         {| response := None;
            toolCalls := Some [Call.mk (Some "math") None];
            metadata := None |})).
Proof.
  apply (efficiency_depends_on_call_names
           {| expectations := StepExpectations.mk ["math"] |} "first" "second"
           {| response := Some "42";
              toolCalls := Some [Call.mk (Some "math") (Some [("a", JInt 15)])];
              metadata := Some {| toolResults := Some
                [ToolResult.mk (Some "math") (Some (JInt 42))] |} |}
           {| response := None;
              toolCalls := Some [Call.mk (Some "math") None];
              metadata := None |}).
  reflexivity.
Defined.
